(** * The e-commerce / blog / consultation backend: model and properties

    A shallow embedding of [src/main.py] and [src/schemas.py].  The handlers
    are functions in a state-and-exception monad over the database handle
    [db]; documents are dictionaries (finite maps from field names to
    values); prices and charges are binary64 floats, as Python's [float].

    Layout: Python's numeric builtins ([PyFloat]), the identifiers of the
    document store ([Bson]), the store and its driver operations, the
    adapter of [database.py], the request models and handlers of [main.py],
    the framework's part around them (validation of a body, the status of
    an answer), and then the properties. *)

From stdpp Require Import gmap strings list fin_maps pretty.
From Stdlib Require Import Floats ZArith Ascii.

Set Warnings "-register-all,-inexact-float".

Open Scope Z_scope.

(** ** Exceptions *)

(** What a handler can raise: FastAPI's [HTTPException], which the framework
    turns into a JSON error with that status, and the exceptions that escape
    unhandled (the framework answers those with 500). *)
Inductive exn :=
| HTTPException (status_code : Z) (detail : string)
| TypeError         (* subscripting [db] while it is [None] *)
| InvalidId         (* bson.errors.InvalidId *)
| OverflowError     (* int too large to convert to float *)
| StoreUnavailable  (* the adapter found no database handle *)
| NotImplementedError      (* truth testing of the driver's database handle *)
| RequestValidationError.  (* FastAPI: the request does not fit its model *)

(** ** Python floats *)

Module PyFloat.

(** [float(z)] with IEEE rounding to nearest, ties to even; integers beyond
    the range of binary64 give an infinity here. *)
Definition of_int_rne (z : Z) : float :=
  SF2Prim (binary_normalize prec emax z 0 false).

(** The conversion Python applies to the [int] operand of [float * int]
    (and in [float(z)]): it raises [OverflowError] where the rounded value
    would not be finite. *)
Definition of_int (z : Z) : exn + float :=
  let f := of_int_rne z in
  if is_infinity f then inl OverflowError else inr f.

(** [x * z] for a float [x] and an int [z]. *)
Definition mul_int (x : float) (z : Z) : exn + float :=
  match of_int z with
  | inl e => inl e
  | inr y => inr (x * y)%float
  end.

(** Nearest integer to [q / d], ties to even ([0 < d]). *)
Definition round_half_even (q d : Z) : Z :=
  let n := q / d in
  let r := q mod d in
  match 2 * r ?= d with
  | Lt => n
  | Gt => n + 1
  | Eq => if Z.even n then n else n + 1
  end.

(** The float nearest to [n / d] with sign [s] (what [strtod] returns for
    the decimal string of [n / d] when [d] is a power of ten). *)
Definition of_ratio (s : bool) (n : Z) (d : positive) : float :=
  match n with
  | Zpos p => SF2Prim (SFdiv prec emax (S754_finite s p 0) (S754_finite false d 0))
  | _ => SF2Prim (S754_zero s)
  end.

(** CPython's bound on [ndigits] above which [round] returns its argument. *)
Definition NDIGITS_MAX : N := 323.

(** [round(x, ndigits)] for [ndigits >= 0]: the exact value of [x] is
    rounded half-even to [ndigits] decimals and the decimal is converted
    back to the nearest float; zeros, infinities and NaN round to
    themselves. *)
Definition round (x : float) (ndigits : N) : float :=
  if (NDIGITS_MAX <? ndigits)%N then x
  else
    match Prim2SF x with
    | S754_finite s m e =>
        if 0 <=? e then x
        else
          let p := 10 ^ Z.of_N ndigits in
          of_ratio s (round_half_even (Z.pos m * p) (2 ^ (- e))) (Z.to_pos p)
    | _ => x
    end.

(** [sum] over floats changed with CPython 3.12: before, the items are added
    from left to right; since, the additions are compensated (Neumaier). *)
Inductive sum_algorithm := LeftToRight | Neumaier.

Definition sum_plain (acc : float) (xs : list float) : float :=
  foldl (fun f x => f + x)%float acc xs.

Fixpoint sum_neumaier (f c : float) (xs : list float) : float :=
  match xs with
  | [] =>
      if negb (c =? 0)%float && negb (is_nan c) && negb (is_infinity c)
      then (f + c)%float else f
  | x :: xs' =>
      let t := (f + x)%float in
      let c' :=
        if (abs x <=? abs f)%float
        then (c + ((f - t) + x))%float
        else (c + ((x - t) + f))%float in
      sum_neumaier t c' xs'
  end.

(** [sum(xs)] for a non-empty list of floats: the start value is the int
    [0], so the first step is [0 + x], computed as [0.0 + x]. *)
Definition sum (alg : sum_algorithm) (xs : list float) : float :=
  match xs with
  | [] => 0%float
  | x :: xs' =>
      let f := (0 + x)%float in
      match alg with
      | LeftToRight => sum_plain f xs'
      | Neumaier => sum_neumaier f 0%float xs'
      end
  end.

End PyFloat.

(** ** Identifiers of the document store *)

Module Bson.

(** An [ObjectId] is its bytes (twelve of them when the store minted it). *)
Definition ObjectId := list N.

Definition hex_digit (n : N) : ascii :=
  ascii_of_N (if (n <? 10)%N then 48 + n else 87 + n)%N.

Definition hex_value (c : ascii) : option N :=
  let n := N_of_ascii c in
  if (48 <=? n)%N && (n <=? 57)%N then Some (n - 48)%N
  else if (97 <=? n)%N && (n <=? 102)%N then Some (n - 87)%N
  else if (65 <=? n)%N && (n <=? 70)%N then Some (n - 55)%N
  else None.

Definition is_space (c : ascii) : bool :=
  let n := N_of_ascii c in
  ((9 <=? n)%N && (n <=? 13)%N) || (n =? 32)%N.

(** [bytes.fromhex]: pairs of hex digits, ASCII whitespace skipped between
    pairs; [None] stands for its [ValueError]. *)
Fixpoint fromhex (s : string) : option (list N) :=
  match s with
  | EmptyString => Some []
  | String c s' =>
      if is_space c then fromhex s'
      else
        match hex_value c, s' with
        | Some hi, String c' s'' =>
            match hex_value c' with
            | Some lo => cons (16 * hi + lo)%N <$> fromhex s''
            | None => None
            end
        | _, _ => None
        end
  end.

(** [ObjectId(s)] for a string: 24 characters that [bytes.fromhex] accepts,
    and [InvalidId] otherwise. *)
Definition parse (s : string) : exn + ObjectId :=
  if (String.length s =? 24)%nat then
    match fromhex s with
    | Some b => inr b
    | None => inl InvalidId
    end
  else inl InvalidId.

Fixpoint hexlify (b : list N) : string :=
  match b with
  | [] => EmptyString
  | x :: b' => String (hex_digit (x / 16)) (String (hex_digit (x mod 16)) (hexlify b'))
  end.

(** [str(oid)] *)
Definition to_str (oid : ObjectId) : string := hexlify oid.

(** The identifier minted for the [n]-th insertion: twelve bytes, big endian. *)
Definition mint (n : N) : ObjectId :=
  (fun i : nat => (n / 256 ^ N.of_nat (11 - i)) mod 256)%N <$> seq 0 12.

End Bson.

(** ** The document store *)

(** The values a document holds. *)
Inductive value :=
| VNone
| VBool (b : bool)
| VInt (z : Z)
| VFloat (f : float)
| VStr (s : string)
| VList (l : list value)
| VDict (d : gmap string value).

(** [Optional[str]] as a value *)
Definition VOptStr (o : option string) : value :=
  match o with
  | Some s => VStr s
  | None => VNone
  end.

(** A stored document: the [_id] the store gave it and its other fields. *)
Record document := { _id : Bson.ObjectId; fields : gmap string value }.

(** The database behind [db]: the documents of each named collection in
    insertion order, and the count of identifiers minted so far. *)
Record database := {
  collections : gmap string (list document);
  minted : N
}.

(** [db[name]]: a collection nobody wrote to is empty. *)
Definition coll (name : string) (d : database) : list document :=
  default [] (collections d !! name).

Definition set_coll (name : string) (docs : list document) (d : database) : database :=
  {| collections := <[name := docs]> (collections d); minted := minted d |}.

(** The filter dictionaries the handlers pass: [{}], [{k: v}] for a string [v], and
    [{"_id": oid}]. *)
Inductive query :=
| MatchAll
| MatchStr (k v : string)
| MatchId (oid : Bson.ObjectId).

Definition matches (q : query) (d : document) : bool :=
  match q with
  | MatchAll => true
  | MatchStr k v =>
      match fields d !! k with
      | Some (VStr s) => String.eqb s v
      | _ => false
      end
  | MatchId oid => bool_decide (_id d = oid)
  end.

(** [$set] of one field on the first document that matches. *)
Fixpoint set_first (q : query) (k : string) (v : value) (docs : list document) : list document :=
  match docs with
  | [] => []
  | d :: docs' =>
      if matches q d
      then {| _id := _id d; fields := <[k := v]> (fields d) |} :: docs'
      else d :: set_first q k v docs'
  end.

(** ** The handler monad: the global [db] and exceptions *)

(** [db] is [None] until the adapter has connected. *)
Definition M (A : Type) : Type := option database -> (exn + A) * option database.

Definition ret {A} (a : A) : M A := fun s => (inr a, s).

Definition raise {A} (e : exn) : M A := fun s => (inl e, s).

Definition bind {A B} (m : M A) (k : A -> M B) : M B :=
  fun s =>
    match m s with
    | (inl e, s') => (inl e, s')
    | (inr a, s') => k a s'
    end.

Notation "x <~ m ;; k" := (bind m (fun x => k))
  (at level 100, m at next level, right associativity).
Notation "m ;;; k" := (bind m (fun _ => k))
  (at level 100, right associativity).

(** A Python expression that may raise, inside a handler. *)
Definition lift {A} (r : exn + A) : M A :=
  match r with
  | inl e => raise e
  | inr a => ret a
  end.

(** The truth value of [db] in [... if db else ...]: [None] is false; an
    initialised handle is the driver's [Database] (the object [main.py]
    subscripts, and asks for [name] and [list_collection_names()]), whose
    [__bool__] raises [NotImplementedError]: the driver asks to compare
    with [None] instead, as [test_database] does. *)
Definition db_truthy : M bool :=
  fun s =>
    match s with
    | None => (inr false, None)
    | Some d => (inl NotImplementedError, Some d)
    end.

(** An operation of the driver on [db[name]]; subscripting [None] is a
    [TypeError]. *)
Definition on_db {A} (f : database -> A * database) : M A :=
  fun s =>
    match s with
    | None => (inl TypeError, None)
    | Some d => let '(a, d') := f d in (inr a, Some d')
    end.

(** [db[name]] evaluated on its own, before the arguments of the call. *)
Definition db_getitem (name : string) : M string := on_db (fun d => (name, d)).

Definition find_one (c : string) (q : query) : M (option document) :=
  on_db (fun d => (find (matches q) (coll c d), d)).

Definition count_documents (c : string) (q : query) : M Z :=
  on_db (fun d => (Z.of_nat (length (filter (fun x => matches q x = true) (coll c d))), d)).

Definition delete_many (c : string) (q : query) : M unit :=
  on_db (fun d => (tt, set_coll c (filter (fun x => matches q x = false) (coll c d)) d)).

Definition update_one (c : string) (q : query) (k : string) (v : value) : M unit :=
  on_db (fun d => (tt, set_coll c (set_first q k v (coll c d)) d)).

(** ** The adapter ([database.py]) *)

(** Modelled from the spec: [create_document] of [database.py], which is not
    among the sources.  Section 4.1: [insert(collection, doc) -> id] returns a
    newly minted unique identifier (exposed in string form), performs no
    validation, and an absent connection is a failure of its own, not an
    empty result. *)
Definition create_document (collection_name : string) (data : gmap string value) : M string :=
  fun s =>
    match s with
    | None => (inl StoreUnavailable, None)
    | Some d =>
        let oid := Bson.mint (minted d) in
        let doc := {| _id := oid; fields := data |} in
        (inr (Bson.to_str oid),
         Some {| collections := <[collection_name := coll collection_name d ++ [doc]]> (collections d);
                 minted := N.succ (minted d) |})
    end.

(** Modelled from the spec: [get_documents] of [database.py], which is not
    among the sources.  Section 4.1: [find(collection, filter, limit) -> list
    of doc]; sections 4.3 to 4.6: all matching documents in insertion order,
    and up to [limit] of them when a limit is given. *)
Definition get_documents (collection_name : string) (q : query) (limit : option Z) : M (list document) :=
  fun s =>
    match s with
    | None => (inl StoreUnavailable, None)
    | Some d =>
        let found := filter (fun x => matches q x = true) (coll collection_name d) in
        (inr match limit with
             | Some n => take (Z.to_nat n) found
             | None => found
             end, s)
    end.

(** The listing handlers' loop body: [d["id"] = str(d.pop("_id"))]. *)
Definition normalize_id (d : document) : gmap string value :=
  <["id" := VStr (Bson.to_str (_id d))]> (fields d).

(** ** Products ([main.py]) *)

Record SeedRequest := { force : bool }.

Record SeedResponse := { inserted : Z; message : option string }.

(** [f"{z:03}"]: zero padding to width three, the sign first. *)
Definition pad0 (width : nat) (s : string) : string :=
  String.concat "" (replicate (width - String.length s) "0") +:+ s.

Definition format_03 (z : Z) : string :=
  if z <? 0 then "-" +:+ pad0 2 (pretty (- z)) else pad0 3 (pretty z).

Definition sample_product (i : Z) : gmap string value :=
  list_to_map [
    ("title", VStr ("Product " +:+ pretty (i + 1)));
    ("description", VStr "A great product you will love.");
    ("price", VFloat (PyFloat.of_int_rne (499 + i * 50)));
    ("category", VStr "general");
    ("in_stock", VBool true);
    ("image", VStr ("https://picsum.photos/seed/p" +:+ pretty i +:+ "/600/400"));
    ("sku", VStr ("SKU" +:+ format_03 (i + 1)));
    ("stock_qty", VInt 20)
  ].

Definition SAMPLE_PRODUCTS : list (gmap string value) :=
  sample_product <$> seqZ 0 10.

(** The loop of [seed_products]: one [create_document] per product. *)
Fixpoint insert_products (ps : list (gmap string value)) (inserted : Z) : M Z :=
  match ps with
  | [] => ret inserted
  | p :: ps' =>
      create_document "product" p ;;;
      insert_products ps' (inserted + 1)
  end.

Definition seed_products (body : SeedRequest) : M SeedResponse :=
  has_db <~ db_truthy ;;
  existing <~ (if has_db then count_documents "product" MatchAll else ret 0) ;;
  if (0 <? existing) && negb (force body)
  then ret {| inserted := 0; message := Some "Products already exist" |}
  else
    (if force body then delete_many "product" MatchAll else ret tt) ;;;
    n <~ insert_products SAMPLE_PRODUCTS 0 ;;
    ret {| inserted := n; message := None |}.

(** ** Blogs *)

Record BlogCreate := {
  blog_title : string;
  slug : string;
  content : string;
  excerpt : option string;
  cover_image : option string;
  author : option string
}.

Definition blog_model_dump (b : BlogCreate) : gmap string value :=
  list_to_map [
    ("title", VStr (blog_title b));
    ("slug", VStr (slug b));
    ("content", VStr (content b));
    ("excerpt", VOptStr (excerpt b));
    ("cover_image", VOptStr (cover_image b));
    ("author", VOptStr (author b))
  ].

Definition create_blog (blog : BlogCreate) : M string :=
  exists_ <~ find_one "blogpost" (MatchStr "slug" (slug blog)) ;;
  match exists_ with
  | Some _ => raise (HTTPException 400 "Slug already exists")
  | None =>
      bid <~ create_document "blogpost" (blog_model_dump blog) ;;
      ret bid
  end.

Definition get_blog (slug : string) : M (gmap string value) :=
  doc <~ find_one "blogpost" (MatchStr "slug" slug) ;;
  match doc with
  | None => raise (HTTPException 404 "Not found")
  | Some d => ret (normalize_id d)
  end.

(** ** Consultations *)

Record ConsultationRequest := {
  name : string;
  email : string;
  phone : option string;
  doctor : string;
  date : string;
  time : string;
  notes : option string
}.

Definition consultation_model_dump (r : ConsultationRequest) : gmap string value :=
  list_to_map [
    ("name", VStr (name r));
    ("email", VStr (email r));
    ("phone", VOptStr (phone r));
    ("doctor", VStr (doctor r));
    ("date", VStr (date r));
    ("time", VStr (time r));
    ("notes", VOptStr (notes r))
  ].

Record BookingResponse := { booking_id : string; booking_status : string }.

Definition book_consultation (req : ConsultationRequest) : M BookingResponse :=
  cid <~ create_document "consultation" (consultation_model_dump req) ;;
  ret {| booking_id := cid; booking_status := "pending" |}.

(** The query parameter [limit] is [None] when the caller leaves it out;
    the signature's default is 20. *)
Definition list_consultations (limit : option Z) : M (list (gmap string value)) :=
  docs <~ get_documents "consultation" MatchAll (Some (default 20 limit)) ;;
  ret (normalize_id <$> docs).

(** ** Checkout and orders *)

Record OrderItemIn := {
  product_id : string;
  item_title : string;
  price : float;
  quantity : Z;
  image : option string
}.

Record CreateOrderRequest := {
  items : list OrderItemIn;
  customer_name : string;
  customer_email : string;
  customer_address : string
}.

Definition item_model_dump (i : OrderItemIn) : value :=
  VDict (list_to_map [
    ("product_id", VStr (product_id i));
    ("title", VStr (item_title i));
    ("price", VFloat (price i));
    ("quantity", VInt (quantity i));
    ("image", VOptStr (image i))
  ]).

(** The generator [i.price * i.quantity for i in req.items]. *)
Fixpoint line_totals (its : list OrderItemIn) : exn + list float :=
  match its with
  | [] => inr []
  | i :: its' =>
      match PyFloat.mul_int (price i) (quantity i) with
      | inl e => inl e
      | inr x =>
          match line_totals its' with
          | inl e => inl e
          | inr xs => inr (x :: xs)
          end
      end
  end.

Record OrderResponse := {
  order_id : string;
  amount : float;
  currency : string;
  payment_url : string
}.

Definition order_doc (req : CreateOrderRequest) (subtotal tax shipping total : float) : gmap string value :=
  list_to_map [
    ("items", VList (item_model_dump <$> items req));
    ("subtotal", VFloat subtotal);
    ("tax", VFloat tax);
    ("shipping", VFloat shipping);
    ("total", VFloat total);
    ("currency", VStr "INR");
    ("customer_name", VStr (customer_name req));
    ("customer_email", VStr (customer_email req));
    ("customer_address", VStr (customer_address req));
    ("payment_status", VStr "pending");
    ("payment_provider", VStr "mock")
  ].

(** [alg] is the summation the interpreter's [sum] performs. *)
Definition create_order (alg : PyFloat.sum_algorithm) (req : CreateOrderRequest) : M OrderResponse :=
  match items req with
  | [] => raise (HTTPException 400 "Cart is empty")
  | _ :: _ =>
      lines <~ lift (line_totals (items req)) ;;
      let subtotal := PyFloat.sum alg lines in
      let tax := PyFloat.round (subtotal * 0.18)%float 2 in
      let shipping := if (subtotal <? 999)%float then 49%float else 0%float in
      let total := PyFloat.round (subtotal + tax + shipping)%float 2 in
      oid <~ create_document "order" (order_doc req subtotal tax shipping total) ;;
      let payment_url := "/api/checkout/confirm?order_id=" +:+ oid +:+ "&status=paid" in
      ret {| order_id := oid; amount := total; currency := "INR"; payment_url := payment_url |}
  end.

Record ConfirmResponse := { confirmed_order_id : string; payment_status : string }.

Definition confirm_order (order_id status : option string) : M ConfirmResponse :=
  match order_id with
  | None => raise (HTTPException 400 "order_id required")
  | Some order_id =>
      order <~ (if bool_decide (order_id = "") then ret None
                else
                  db_getitem "order" ;;;
                  oid <~ lift (Bson.parse order_id) ;;
                  find_one "order" (MatchId oid)) ;;
      match order with
      | None => raise (HTTPException 404 "Order not found")
      | Some _ =>
          let new_status := if bool_decide (status = Some "paid") then "paid" else "failed" in
          db_getitem "order" ;;;
          oid <~ lift (Bson.parse order_id) ;;
          update_one "order" (MatchId oid) "payment_status" (VStr new_status) ;;;
          ret {| confirmed_order_id := order_id; payment_status := new_status |}
      end
  end.

(** ** The listings and the schema endpoint *)

(** [get_documents("product")]: no filter and no limit. *)
Definition list_products : M (list (gmap string value)) :=
  docs <~ get_documents "product" MatchAll None ;;
  ret (normalize_id <$> docs).

Definition list_blogs : M (list (gmap string value)) :=
  docs <~ get_documents "blogpost" MatchAll None ;;
  ret (normalize_id <$> docs).

Definition list_orders (limit : option Z) : M (list (gmap string value)) :=
  docs <~ get_documents "order" MatchAll (Some (default 20 limit)) ;;
  ret (normalize_id <$> docs).

(** The collections [get_schema_info] announces. *)
Definition get_schema_info : list string :=
  ["user"; "product"; "blogpost"; "consultation"; "order"].

(** ** The diagnostic endpoint *)

(** What [test_database] asks of its surroundings: the environment
    variables, and for an initialised handle its [name] attribute (if it has
    one) and the outcome of [list_collection_names()], the message of the
    exception or the names. *)
Record Handle := {
  handle_name : option string;
  list_collection_names : string + list string
}.

(** The truth of [os.getenv(k)]: set, and not to the empty string. *)
Definition env_set (getenv : string -> option string) (k : string) : string :=
  match getenv k with
  | Some v => if bool_decide (v = "") then "❌ Not Set" else "✅ Set"
  | None => "❌ Not Set"
  end.

(** Strings hold their text in UTF-8; a character is a lead byte and the
    continuation bytes ([10xxxxxx]) after it. *)
Definition is_continuation (c : ascii) : bool :=
  let n := N_of_ascii c in
  ((128 <=? n) && (n <? 192))%N.

(** [s[:n]]: the first [n] characters of [s], all of [s] when it has fewer. *)
Fixpoint str_take (n : nat) (s : string) : string :=
  match s with
  | EmptyString => EmptyString
  | String c s' =>
      if is_continuation c then String c (str_take n s')
      else
        match n with
        | O => EmptyString
        | S n' => String c (str_take n' s')
        end
  end.

(** [str(e)[:50]] *)
Definition first_50 (msg : string) : string := str_take 50 msg.

(** The answer is built by assignments to the dictionary [response], in the
    order of the source.  The listing is the one call that can raise, and its
    exception is caught on the spot; the outer handler has nothing to catch. *)
Definition test_database (getenv : string -> option string) (db : option Handle)
    : gmap string value :=
  let response : gmap string value :=
    list_to_map [
      ("backend", VStr "✅ Running");
      ("database", VStr "❌ Not Available");
      ("database_url", VNone);
      ("database_name", VNone);
      ("connection_status", VStr "Not Connected");
      ("collections", VList [])
    ] in
  let response :=
    match db with
    | Some h =>
        let response := <["database" := VStr "✅ Available"]> response in
        let response := <["database_url" := VStr (env_set getenv "DATABASE_URL")]> response in
        let response :=
          <["database_name" := VStr (default "✅ Connected" (handle_name h))]> response in
        let response := <["connection_status" := VStr "Connected"]> response in
        match list_collection_names h with
        | inr collections =>
            let response := <["collections" := VList (VStr <$> take 10 collections)]> response in
            <["database" := VStr "✅ Connected & Working"]> response
        | inl e =>
            <["database" := VStr ("⚠️ Connected but Error: " +:+ first_50 e)]> response
        end
    | None => <["database" := VStr "⚠️ Available but not initialized"]> response
    end in
  let response := <["database_url" := VStr (env_set getenv "DATABASE_URL")]> response in
  let response := <["database_name" := VStr (env_set getenv "DATABASE_NAME")]> response in
  response.

(** ** The framework around the handlers *)

(** A field annotated [str] in a request model: the JSON value has to be a
    string (numbers are not coerced). *)
Definition str_field (body : gmap string value) (k : string) : option string :=
  match body !! k with
  | Some (VStr v) => Some v
  | _ => None
  end.

(** A field annotated [Optional[str] = None]: left out, [null] or a string. *)
Definition optional_str_field (body : gmap string value) (k : string) : option (option string) :=
  match body !! k with
  | None | Some VNone => Some None
  | Some (VStr v) => Some (Some v)
  | Some _ => None
  end.

(** The validation of a JSON object against [BlogCreate]; fields the model
    does not name are ignored. *)
Definition BlogCreate_validate (body : gmap string value) : option BlogCreate :=
  t ← str_field body "title";
  sl ← str_field body "slug";
  c ← str_field body "content";
  e ← optional_str_field body "excerpt";
  ci ← optional_str_field body "cover_image";
  a ← optional_str_field body "author";
  Some {| blog_title := t; slug := sl; content := c; excerpt := e; cover_image := ci;
          author := a |}.

Definition ConsultationRequest_validate (body : gmap string value) : option ConsultationRequest :=
  n ← str_field body "name";
  e ← str_field body "email";
  p ← optional_str_field body "phone";
  d ← str_field body "doctor";
  dt ← str_field body "date";
  t ← str_field body "time";
  nt ← optional_str_field body "notes";
  Some {| name := n; email := e; phone := p; doctor := d; date := dt; time := t;
          notes := nt |}.

(** What FastAPI does with a route whose function takes a model: the body
    is validated first; when it does not fit the model the framework raises
    [RequestValidationError] and the function is not called. *)
Definition with_body {Req A} (validate : gmap string value -> option Req)
    (handler : Req -> M A) (body : gmap string value) : M A :=
  match validate body with
  | Some req => handler req
  | None => raise RequestValidationError
  end.

(** [@app.post("/api/blogs")] and [@app.post("/api/consultations")]. *)
Definition post_blogs : gmap string value -> M string :=
  with_body BlogCreate_validate create_blog.

Definition post_consultations : gmap string value -> M BookingResponse :=
  with_body ConsultationRequest_validate book_consultation.

(** The status of the answer when the handling of a request raised [e]: an
    [HTTPException] carries its status; [RequestValidationError] is answered
    by the framework's own handler with 422; an exception of the interpreter
    or of a library that nothing catches ends at the server's error
    middleware, which answers 500.  The adapter's own exception is raised in
    [database.py], which is not among the sources: what it is answered with
    is not decided here. *)
Definition response_status (e : exn) : option Z :=
  match e with
  | HTTPException status_code _ => Some status_code
  | RequestValidationError => Some 422
  | TypeError | InvalidId | OverflowError | NotImplementedError => Some 500
  | StoreUnavailable => None
  end.

(** The status of the answer to a request; none of the routes sets a status
    for success, which is then 200. *)
Definition answered_status {A} (r : exn + A) : option Z :=
  match r with
  | inl e => response_status e
  | inr _ => Some 200
  end.

(** ** The schemas ([schemas.py]) *)

Module Schemas.

(** A field of a model: its name, and whether a value must be given ([...])
    or a default stands in. *)
Record field := { field_name : string; required : bool }.

Definition User : list field :=
  [ {| field_name := "name"; required := true |};
    {| field_name := "email"; required := true |};
    {| field_name := "address"; required := false |};
    {| field_name := "age"; required := false |};
    {| field_name := "is_active"; required := false |} ].

Definition Product : list field :=
  [ {| field_name := "title"; required := true |};
    {| field_name := "description"; required := false |};
    {| field_name := "price"; required := true |};
    {| field_name := "category"; required := true |};
    {| field_name := "in_stock"; required := false |};
    {| field_name := "image"; required := false |};
    {| field_name := "sku"; required := false |};
    {| field_name := "stock_qty"; required := false |} ].

Definition BlogPost : list field :=
  [ {| field_name := "title"; required := true |};
    {| field_name := "slug"; required := true |};
    {| field_name := "excerpt"; required := false |};
    {| field_name := "content"; required := true |};
    {| field_name := "cover_image"; required := false |};
    {| field_name := "author"; required := false |} ].

Definition Consultation : list field :=
  [ {| field_name := "name"; required := true |};
    {| field_name := "email"; required := true |};
    {| field_name := "phone"; required := false |};
    {| field_name := "doctor"; required := true |};
    {| field_name := "date"; required := true |};
    {| field_name := "time"; required := true |};
    {| field_name := "notes"; required := false |};
    {| field_name := "status"; required := false |} ].

Definition OrderItem : list field :=
  [ {| field_name := "product_id"; required := true |};
    {| field_name := "title"; required := true |};
    {| field_name := "price"; required := true |};
    {| field_name := "quantity"; required := true |};
    {| field_name := "image"; required := false |} ].

Definition Order : list field :=
  [ {| field_name := "items"; required := true |};
    {| field_name := "subtotal"; required := true |};
    {| field_name := "tax"; required := true |};
    {| field_name := "shipping"; required := true |};
    {| field_name := "total"; required := true |};
    {| field_name := "currency"; required := false |};
    {| field_name := "customer_name"; required := true |};
    {| field_name := "customer_email"; required := true |};
    {| field_name := "customer_address"; required := true |};
    {| field_name := "payment_status"; required := false |};
    {| field_name := "payment_provider"; required := false |} ].

(** The names of all fields, and of the required ones. *)
Definition names (m : list field) : gset string :=
  list_to_set (field_name <$> m).

Definition required_names (m : list field) : gset string :=
  list_to_set (field_name <$> filter (λ f, required f = true) m).

End Schemas.

(** The slugs of the stored blog posts, in insertion order. *)
Definition slugs (d : database) : list string :=
  omap (λ doc, match fields doc !! "slug" with
               | Some (VStr s) => Some s
               | _ => None
               end) (coll "blogpost" d).

(** ** Reading the outcomes *)

(** The HTTP status a raised [HTTPException] is surfaced with. *)
Definition surfaced_status {A} (r : exn + A) : option Z :=
  match r with
  | inl (HTTPException status_code _) => Some status_code
  | _ => None
  end.

(** Some stored blog post has this slug. *)
Definition slug_taken (s : string) (d : database) : Prop :=
  ∃ doc, doc ∈ coll "blogpost" d ∧ fields doc !! "slug" = Some (VStr s).

(** The charges in the words of the specification, over binary64.

    [k] is the integer nearest to [q / d], the even one of the two when
    [q / d] lies halfway ([0 < d]). *)
Definition nearest_even (q d k : Z) : Prop :=
  2 * Z.abs (q - k * d) ≤ d ∧ (2 * Z.abs (q - k * d) = d → Z.even k = true).

(** [r] is [x] rounded to two decimal places: for a finite [x], of exact
    value [m * 2 ^ e] up to sign, with a fractional part ([e < 0]), [r] is
    the float nearest to [k / 100], where [k] is the number of hundredths
    nearest to [x]; a float without fractional part, an infinity and NaN
    are left as they are. *)
Definition rounded_to_cents (x r : float) : Prop :=
  match Prim2SF x with
  | S754_finite s m e =>
      if 0 <=? e then r = x
      else ∃ k, nearest_even (Z.pos m * 100) (2 ^ (- e)) k ∧ r = PyFloat.of_ratio s k 100
  | _ => r = x
  end.

(** [s] is what adding the items up gives, one after the other from the
    first, starting from 0. *)
Inductive added_up : list float → float → Prop :=
| added_first x : added_up [x] (0 + x)%float
| added_next l s y : added_up l s → added_up (l ++ [y]) (s + y)%float.

(** The same with a running compensation [c]: at each item the part of the
    smaller operand that the addition lost is collected in [c]. *)
Inductive compensated : list float → float → float → Prop :=
| compensated_first x : compensated [x] (0 + x)%float 0%float
| compensated_next l f c y :
    compensated l f c →
    compensated (l ++ [y]) (f + y)%float
      (c + (if (abs y <=? abs f)%float then (f - (f + y)) + y else (y - (f + y)) + f))%float.

(** [s] is the sum of the items as the interpreter computes it: plainly
    before CPython 3.12 and, since, with the compensation added at the end
    when it is finite and not zero. *)
Definition sums_to (alg : PyFloat.sum_algorithm) (xs : list float) (s : float) : Prop :=
  match alg with
  | PyFloat.LeftToRight => added_up xs s
  | PyFloat.Neumaier =>
      ∃ f c, compensated xs f c
             ∧ s = if negb (c =? 0)%float && is_finite c then (f + c)%float else f
  end.

(** The error taxonomy of the specification (section 7), with the statuses
    of its list 400/404/400/422/503 read respectively. *)
Module Taxonomy.

Inductive kind := BadRequest | Conflict | NotFound | ValidationFailed | StoreUnavailable.

Definition listed_status (k : kind) : Z :=
  match k with
  | BadRequest => 400
  | Conflict => 404
  | NotFound => 400
  | ValidationFailed => 422
  | StoreUnavailable => 503
  end.

End Taxonomy.

(** A row of the product catalog: title, price, sku and stock of a product
    document. *)
Definition catalog_row (p : gmap string value) : list (option value) :=
  [p !! "title"; p !! "price"; p !! "sku"; p !! "stock_qty"].

Definition row (title : string) (price : float) (sku : string) (stock_qty : Z) : list (option value) :=
  [Some (VStr title); Some (VFloat price); Some (VStr sku); Some (VInt stock_qty)].

(** Each float is below the next one. *)
Fixpoint increasing (xs : list float) : bool :=
  match xs with
  | x :: (y :: _) as rest => (x <? y)%float && increasing rest
  | _ => true
  end.

(** The exact value of a finite float in units of [2 ^ -1074], of which
    every finite binary64 is a multiple. *)
Definition scaled_value (x : float) : option Z :=
  match Prim2SF x with
  | S754_zero _ => Some 0
  | S754_finite s m e => Some ((if s then -1 else 1) * Z.pos m * 2 ^ (e + 1074))
  | _ => None
  end.

(** The four charges of the order stored last. *)
Definition last_charges (d : database) : list (option value) :=
  match last (coll "order" d) with
  | Some doc => (λ k, fields doc !! k) <$> ["subtotal"; "tax"; "shipping"; "total"]
  | None => []
  end.

(** What a run of [create_order] that answers has charged: the amount of
    the answer and the charges it stored. *)
Definition charged (r : (exn + OrderResponse) * option database)
    : option (float * list (option value)) :=
  match r with
  | (inr resp, Some d) => Some (amount resp, last_charges d)
  | _ => None
  end.

(** ** Sample data for the examples *)

Definition empty_db : database := {| collections := ∅; minted := 0 |}.

Definition cart_item (p : float) (q : Z) : OrderItemIn :=
  {| product_id := "p1"; item_title := "Item"; price := p; quantity := q; image := None |}.

Definition cart (its : list OrderItemIn) : CreateOrderRequest :=
  {| items := its; customer_name := "Asha"; customer_email := "asha@example.com";
     customer_address := "12 Lake Road" |}.

(** The store after one order was placed on the empty store; the order's
    identifier is the first one minted. *)
Definition db_one_order : database :=
  default empty_db (snd (create_order PyFloat.LeftToRight (cart [cart_item 500 2]) (Some empty_db))).

Definition first_order_id : string := "000000000000000000000000".

Definition hello_post : BlogCreate :=
  {| blog_title := "Hello"; slug := "hello"; content := "First post";
     excerpt := None; cover_image := None; author := Some "Asha" |}.

(** The store after [hello_post] was published on the empty store. *)
Definition db_hello : database :=
  default empty_db (snd (create_blog hello_post (Some empty_db))).

Definition booking (n : string) : ConsultationRequest :=
  {| name := n; email := "asha@example.com"; phone := None; doctor := "Dr. Rao";
     date := "2025-01-15"; time := "10:30"; notes := None |}.

(** The store after seven bookings on the empty store. *)
Definition db_seven_bookings : database :=
  default empty_db
    (foldl (λ s n, snd (book_consultation (booking n) s)) (Some empty_db)
       ["a"; "b"; "c"; "d"; "e"; "f"; "g"]).

(** * Properties *)

(** ** Python's builtins *)

(** The model of [round] agrees with the interpreter on the usual half-way
    cases: the exact binary value decides, and exact ties go to even. *)
Example round_two_decimals :
  PyFloat.round 2.675 2 = 2.67%float
  ∧ PyFloat.round 1.005 2 = 1%float
  ∧ PyFloat.round 0.125 2 = 0.12%float
  ∧ PyFloat.round 0.375 2 = 0.38%float
  ∧ PyFloat.round (-0.001) 2 = (-0)%float
  ∧ PyFloat.round 1180 2 = 1180%float.
Proof. repeat split; reflexivity. Qed.

(** Since CPython 3.12 [sum] recovers what plain addition loses. *)
Example sum_algorithms_differ :
  PyFloat.sum PyFloat.LeftToRight [1e16; 1; -1e16]%float = 0%float
  ∧ PyFloat.sum PyFloat.Neumaier [1e16; 1; -1e16]%float = 1%float.
Proof. split; reflexivity. Qed.

Example of_int_range :
  PyFloat.of_int 2 = inr 2%float
  ∧ PyFloat.of_int (2 ^ 53 + 1) = inr 9007199254740992%float
  ∧ PyFloat.of_int (2 ^ 1024) = inl OverflowError.
Proof. repeat split; reflexivity. Qed.

(** A slice counts characters, not bytes. *)
Example str_take_characters :
  str_take 2 "é✅x" = "é✅"
  ∧ first_50 "connection refused" = "connection refused"
  ∧ first_50 "0123456789012345678901234567890123456789012345678901234567890123456789"
    = "01234567890123456789012345678901234567890123456789"
  ∧ String.length (first_50 (String.concat "" (replicate 60 "é"))) = 100%nat.
Proof. repeat split; reflexivity. Qed.

(** ** Request bodies *)

(** The body a client builds from a request fits the model and is read back
    as that request. *)
Lemma BlogCreate_validate_dump (b : BlogCreate) :
  BlogCreate_validate (blog_model_dump b) = Some b.
Proof. destruct b as [t sl c [e |] [ci |] [a |]]; reflexivity. Qed.

Lemma ConsultationRequest_validate_dump (r : ConsultationRequest) :
  ConsultationRequest_validate (consultation_model_dump r) = Some r.
Proof. destruct r as [n e [p |] d dt t [nt |]]; reflexivity. Qed.

(** A required field left out, or one that is not a string, is refused. *)
Lemma BlogCreate_validate_slug (body : gmap string value) :
  str_field body "slug" = None → BlogCreate_validate body = None.
Proof.
  intros Hslug. unfold BlogCreate_validate.
  destruct (str_field body "title"); simpl; [| done]. by rewrite Hslug.
Qed.

(** ** Identifiers *)

Lemma hex_digit_value (h : N) :
  (h < 16)%N →
  Bson.hex_value (Bson.hex_digit h) = Some h ∧ Bson.is_space (Bson.hex_digit h) = false.
Proof.
  intros Hh.
  destruct h as [| p]; [by vm_compute |].
  do 4 (try destruct p as [p | p |]); try lia; by vm_compute.
Qed.

Lemma fromhex_hexlify (b : list N) :
  Forall (λ x, (x < 256)%N) b → Bson.fromhex (Bson.hexlify b) = Some b.
Proof.
  induction 1 as [| x b Hx _ IH]; [done |].
  assert (Hhi : (x / 16 < 16)%N) by (apply N.Div0.div_lt_upper_bound; lia).
  assert (Hlo : (x mod 16 < 16)%N) by (apply N.mod_lt; lia).
  destruct (hex_digit_value _ Hhi) as [Hv1 Hs1].
  destruct (hex_digit_value _ Hlo) as [Hv2 _].
  cbn [Bson.hexlify Bson.fromhex]. rewrite Hs1, Hv1, Hv2, IH. simpl.
  do 2 f_equal. symmetry. apply N.div_mod. lia.
Qed.

Lemma length_hexlify (b : list N) :
  String.length (Bson.hexlify b) = (2 * length b)%nat.
Proof. induction b as [| x b IH]; simpl; [done |]. rewrite IH. lia. Qed.

(** The string form of a minted identifier parses back to it. *)
Lemma parse_minted (n : N) : Bson.parse (Bson.to_str (Bson.mint n)) = inr (Bson.mint n).
Proof.
  unfold Bson.parse, Bson.to_str.
  rewrite length_hexlify. unfold Bson.mint at 1. rewrite length_fmap, length_seq.
  change (2 * 12 =? 24)%nat with true. cbv iota.
  rewrite fromhex_hexlify; [done |].
  unfold Bson.mint. apply Forall_fmap, Forall_forall. intros i _. simpl.
  apply N.mod_lt. lia.
Qed.

Lemma parse_nonempty (order_id : string) (oid : Bson.ObjectId) :
  Bson.parse order_id = inr oid → order_id ≠ "".
Proof. intros Hparse ->. discriminate Hparse. Qed.

(** ** Running a handler *)

Lemma bind_run {A B} (m : M A) (k : A → M B) (s s' : option database) (a : A) :
  m s = (inr a, s') → bind m k s = k a s'.
Proof. intros Hm. unfold bind. by rewrite Hm. Qed.

Lemma bind_raise {A B} (m : M A) (k : A → M B) (s s' : option database) (e : exn) :
  m s = (inl e, s') → bind m k s = (inl e, s').
Proof. intros Hm. unfold bind. by rewrite Hm. Qed.

(** One statement of a handler whose run is known. *)
Ltac step H := rewrite (bind_run _ _ _ _ _ H).

(** A statement that raises. *)
Ltac raises H := rewrite (bind_raise _ _ _ _ _ H).

(** ** The store and its operations *)

Lemma coll_set_coll (c : string) (docs : list document) (d : database) :
  coll c (set_coll c docs d) = docs.
Proof. unfold coll, set_coll; simpl. by rewrite lookup_insert_eq. Qed.

Lemma coll_set_coll_ne (c c' : string) (docs : list document) (d : database) :
  c ≠ c' → coll c' (set_coll c docs d) = coll c' d.
Proof. intros Hne. unfold coll, set_coll; simpl. by rewrite lookup_insert_ne. Qed.

Lemma filter_match_all (docs : list document) :
  filter (λ x : document, matches MatchAll x = true) docs = docs.
Proof.
  induction docs as [| d l IH]; [done |].
  rewrite filter_cons_True by done. by rewrite IH.
Qed.

Lemma filter_match_none (docs : list document) :
  filter (λ x : document, matches MatchAll x = false) docs = [].
Proof.
  induction docs as [| d l IH]; [done |].
  by rewrite filter_cons_False.
Qed.

Lemma find_app_hit {A} (p : A → bool) (l : list A) (x : A) :
  p x = true → is_Some (find p (l ++ [x])).
Proof.
  intros Hp. induction l as [| y l IH]; simpl.
  - rewrite Hp. by eexists.
  - destruct (p y); [by eexists | exact IH].
Qed.

(** [$set] keeps the first match where it was, with the field written. *)
Lemma find_set_first (q : query) (k : string) (v : value) (docs : list document) (doc : document) :
  (∀ d, matches q {| _id := _id d; fields := <[k := v]> (fields d) |} = matches q d) →
  find (matches q) docs = Some doc →
  find (matches q) (set_first q k v docs)
    = Some {| _id := _id doc; fields := <[k := v]> (fields doc) |}.
Proof.
  intros Hstable. induction docs as [| d docs IH]; simpl; [discriminate |].
  destruct (matches q d) eqn:Hm.
  - intros [= <-]. simpl. by rewrite Hstable, Hm.
  - intros Hfind. simpl. rewrite Hm. by apply IH.
Qed.

Lemma matches_id_set (oid : Bson.ObjectId) (k : string) (v : value) (d : document) :
  matches (MatchId oid) {| _id := _id d; fields := <[k := v]> (fields d) |}
    = matches (MatchId oid) d.
Proof. reflexivity. Qed.

Lemma db_truthy_some (db : database) :
  db_truthy (Some db) = (inl NotImplementedError, Some db).
Proof. reflexivity. Qed.

Lemma db_getitem_some (c : string) (db : database) :
  db_getitem c (Some db) = (inr c, Some db).
Proof. reflexivity. Qed.

Lemma find_one_some (c : string) (q : query) (db : database) :
  find_one c q (Some db) = (inr (find (matches q) (coll c db)), Some db).
Proof. reflexivity. Qed.

Lemma count_documents_all (c : string) (db : database) :
  count_documents c MatchAll (Some db) = (inr (Z.of_nat (length (coll c db))), Some db).
Proof. unfold count_documents, on_db. by rewrite filter_match_all. Qed.

Lemma delete_many_all (c : string) (db : database) :
  delete_many c MatchAll (Some db) = (inr (), Some (set_coll c [] db)).
Proof. unfold delete_many, on_db. by rewrite filter_match_none. Qed.

Lemma update_one_some (c : string) (q : query) (k : string) (v : value) (db : database) :
  update_one c q k v (Some db)
    = (inr (), Some (set_coll c (set_first q k v (coll c db)) db)).
Proof. reflexivity. Qed.

(** What [create_document] does to an initialised store. *)
Lemma create_document_some (c : string) (data : gmap string value) (d : database) :
  ∃ d',
    create_document c data (Some d) = (inr (Bson.to_str (Bson.mint (minted d))), Some d')
    ∧ coll c d' = coll c d ++ [{| _id := Bson.mint (minted d); fields := data |}]
    ∧ (∀ c', c ≠ c' → coll c' d' = coll c' d)
    ∧ minted d' = N.succ (minted d).
Proof.
  eexists. split; [reflexivity |]. split; [| split].
  - unfold coll; simpl. by rewrite lookup_insert_eq.
  - intros c' Hne. unfold coll; simpl. by rewrite lookup_insert_ne.
  - reflexivity.
Qed.

Lemma get_documents_all (c : string) (n : Z) (db : database) :
  get_documents c MatchAll (Some n) (Some db)
    = (inr (take (Z.to_nat n) (coll c db)), Some db).
Proof. unfold get_documents. by rewrite filter_match_all. Qed.

(** ** Checkout *)

Lemma line_totals_Forall2 (its : list OrderItemIn) (lines : list float) :
  Forall2 (λ i x, PyFloat.mul_int (price i) (quantity i) = inr x) its lines →
  line_totals its = inr lines.
Proof.
  induction 1 as [| i x its lines Hx _ IH]; simpl; [done |].
  by rewrite Hx, IH.
Qed.

(** The run of [create_order] on a cart whose line totals are [lines]. *)
Lemma create_order_run (alg : PyFloat.sum_algorithm) (req : CreateOrderRequest)
    (db : database) (lines : list float) :
  items req ≠ [] →
  line_totals (items req) = inr lines →
  let subtotal := PyFloat.sum alg lines in
  let tax := PyFloat.round (subtotal * 0.18)%float 2 in
  let shipping := if (subtotal <? 999)%float then 49%float else 0%float in
  let total := PyFloat.round (subtotal + tax + shipping)%float 2 in
  let oid := Bson.mint (minted db) in
  ∃ db',
    create_order alg req (Some db)
      = (inr {| order_id := Bson.to_str oid; amount := total; currency := "INR";
                payment_url := "/api/checkout/confirm?order_id=" +:+ Bson.to_str oid
                                 +:+ "&status=paid" |}, Some db')
    ∧ coll "order" db'
        = coll "order" db
            ++ [{| _id := oid; fields := order_doc req subtotal tax shipping total |}].
Proof.
  intros Hne Hlines subtotal tax shipping total oid.
  destruct (create_document_some "order" (order_doc req subtotal tax shipping total) db)
    as (db' & Hrun & Hcoll & _ & _).
  exists db'. split; [| exact Hcoll].
  unfold create_order. destruct (items req) as [| i its] eqn:Hits; [done |].
  rewrite (bind_run _ _ (Some db) (Some db) lines) by (by rewrite Hlines).
  fold subtotal; fold tax; fold shipping; fold total.
  step Hrun. reflexivity.
Qed.

(** C2. A request with no items is refused with 400 "Cart is empty" whatever
    the state of the store, and the store is left exactly as it was: nothing
    is written. *)
Theorem create_order_empty_cart (alg : PyFloat.sum_algorithm) (req : CreateOrderRequest)
    (s : option database) :
  items req = [] →
  create_order alg req s = (inl (HTTPException 400 "Cart is empty"), s).
Proof. intros Hempty. unfold create_order. by rewrite Hempty. Qed.

Lemma create_order_empty_cart_witness :
  create_order PyFloat.LeftToRight (cart []) (Some db_one_order)
    = (inl (HTTPException 400 "Cart is empty"), Some db_one_order).
Proof.
  exact (create_order_empty_cart PyFloat.LeftToRight (cart []) (Some db_one_order) eq_refl).
Defined.

(** *** Rounding and summation against their descriptions *)

Lemma round_half_even_nearest (q d : Z) :
  0 < d → nearest_even q d (PyFloat.round_half_even q d).
Proof.
  intros Hd. unfold nearest_even, PyFloat.round_half_even. cbv zeta.
  pose proof (Z.div_mod q d ltac:(lia)) as Hq.
  pose proof (Z.mod_pos_bound q d Hd) as Hr.
  destruct (2 * (q mod d) ?= d) eqn:Hcmp.
  - apply Z.compare_eq in Hcmp.
    destruct (Z.even (q / d)) eqn:Heven.
    + split; [lia | done].
    + split; [lia |]. intros _.
      replace (q / d + 1) with (Z.succ (q / d)) by lia.
      by rewrite Z.even_succ, <- Z.negb_even, Heven.
  - rewrite Z.compare_lt_iff in Hcmp. split; lia.
  - rewrite Z.compare_gt_iff in Hcmp. split; lia.
Qed.

(** The integer of [nearest_even] is unique: the description determines the
    rounding. *)
Lemma nearest_even_unique (q d k k' : Z) :
  0 < d → nearest_even q d k → nearest_even q d k' → k = k'.
Proof.
  intros Hd [Hk Hke] [Hk' Hke'].
  destruct (decide (k = k')) as [| Hne]; [done | exfalso].
  assert (Hstep : k' = k + 1 ∨ k' = k - 1) by nia.
  assert (Htie : 2 * Z.abs (q - k * d) = d ∧ 2 * Z.abs (q - k' * d) = d) by nia.
  destruct Htie as [Ht Ht']. specialize (Hke Ht). specialize (Hke' Ht').
  destruct Hstep as [-> | ->].
  - replace (k + 1) with (Z.succ k) in Hke' by lia.
    rewrite Z.even_succ, <- Z.negb_even, Hke in Hke'. done.
  - replace (k - 1) with (Z.pred k) in Hke' by lia.
    rewrite Z.even_pred, <- Z.negb_even, Hke in Hke'. done.
Qed.

Lemma round_rounded_to_cents (x : float) : rounded_to_cents x (PyFloat.round x 2).
Proof.
  unfold rounded_to_cents, PyFloat.round.
  change (PyFloat.NDIGITS_MAX <? 2)%N with false. cbv iota.
  destruct (Prim2SF x) as [| | | s m e]; try done.
  destruct (0 <=? e) eqn:He; [done |].
  apply Z.leb_gt in He.
  exists (PyFloat.round_half_even (Z.pos m * 100) (2 ^ (- e))). split; [| done].
  apply round_half_even_nearest, Z.pow_pos_nonneg; lia.
Qed.

(** Conversely, what fits the description is what [round] returns. *)
Lemma rounded_to_cents_round (x r : float) : rounded_to_cents x r → r = PyFloat.round x 2.
Proof.
  unfold rounded_to_cents, PyFloat.round.
  change (PyFloat.NDIGITS_MAX <? 2)%N with false. cbv iota.
  destruct (Prim2SF x) as [| | | s m e]; try done.
  destruct (0 <=? e) eqn:He; [done |].
  apply Z.leb_gt in He. intros (k & Hk & ->).
  assert (Hd : 0 < 2 ^ (- e)) by (apply Z.pow_pos_nonneg; lia).
  by rewrite (nearest_even_unique _ _ _ _ Hd Hk (round_half_even_nearest _ _ Hd)).
Qed.

Lemma sum_plain_added_up (xs l : list float) (s : float) :
  added_up l s → added_up (l ++ xs) (PyFloat.sum_plain s xs).
Proof.
  revert l s. induction xs as [| y xs IH]; intros l s Hl.
  - by rewrite app_nil_r.
  - replace (l ++ y :: xs) with ((l ++ [y]) ++ xs) by (by rewrite <- app_assoc).
    apply (IH (l ++ [y]) (s + y)%float). by constructor.
Qed.

Lemma sum_neumaier_compensated (xs l : list float) (f c : float) :
  compensated l f c →
  ∃ f' c', compensated (l ++ xs) f' c'
           ∧ PyFloat.sum_neumaier f c xs
               = if negb (c' =? 0)%float && is_finite c' then (f' + c')%float else f'.
Proof.
  revert l f c. induction xs as [| y xs IH]; intros l f c Hl.
  - exists f, c. rewrite app_nil_r. split; [done |]. simpl.
    unfold is_finite. by rewrite negb_orb, andb_assoc.
  - replace (l ++ y :: xs) with ((l ++ [y]) ++ xs) by (by rewrite <- app_assoc).
    cbn [PyFloat.sum_neumaier]. cbv zeta.
    pose proof (compensated_next l f c y Hl) as Hnext.
    destruct (abs y <=? abs f)%float; exact (IH _ _ _ Hnext).
Qed.

Lemma sum_sums_to (alg : PyFloat.sum_algorithm) (xs : list float) :
  xs ≠ [] → sums_to alg xs (PyFloat.sum alg xs).
Proof.
  destruct xs as [| x xs]; [done | intros _].
  destruct alg; simpl.
  - apply (sum_plain_added_up xs [x]). constructor.
  - apply (sum_neumaier_compensated xs [x]). constructor.
Qed.

(** C1, amended.  For a request with at least one item in which every
    quantity converts to a float, so that the line totals [price * quantity]
    are [lines], handled while the store is initialised: the handler answers
    with [amount = total] and stores one new order document carrying the
    four charges, where subtotal is the sum of the line totals, tax is
    subtotal times 0.18 rounded to two decimal places, shipping is 49.0 for
    a subtotal below 999 and 0.0 from there on, and total is subtotal plus
    tax plus shipping rounded to two decimal places. *)
Theorem create_order_charges (alg : PyFloat.sum_algorithm) (req : CreateOrderRequest)
    (db : database) (lines : list float) :
  items req ≠ [] →
  Forall2 (λ i x, PyFloat.mul_int (price i) (quantity i) = inr x) (items req) lines →
  ∃ subtotal tax shipping total,
    sums_to alg lines subtotal
    ∧ rounded_to_cents (subtotal * 0.18)%float tax
    ∧ shipping = (if (subtotal <? 999)%float then 49%float else 0%float)
    ∧ rounded_to_cents (subtotal + tax + shipping)%float total
    ∧ ∃ resp db' doc,
        create_order alg req (Some db) = (inr resp, Some db')
        ∧ amount resp = total
        ∧ currency resp = "INR"
        ∧ coll "order" db' = coll "order" db ++ [doc]
        ∧ Bson.to_str (_id doc) = order_id resp
        ∧ fields doc !! "subtotal" = Some (VFloat subtotal)
        ∧ fields doc !! "tax" = Some (VFloat tax)
        ∧ fields doc !! "shipping" = Some (VFloat shipping)
        ∧ fields doc !! "total" = Some (VFloat total).
Proof.
  intros Hne Hlines.
  assert (Hlines_ne : lines ≠ []).
  { intros ->. apply Forall2_nil_inv_r in Hlines. done. }
  apply line_totals_Forall2 in Hlines.
  destruct (create_order_run alg req db lines Hne Hlines) as (db' & Hrun & Hcoll).
  cbv zeta in Hrun, Hcoll.
  eexists _, _, _, _.
  split; [exact (sum_sums_to alg lines Hlines_ne) |].
  split; [apply round_rounded_to_cents |].
  split; [reflexivity |].
  split; [apply round_rounded_to_cents |].
  eexists _, db', _. split; [exact Hrun |]. simpl.
  split; [done |]. split; [done |]. split; [exact Hcoll |].
  split; [done |]. repeat split; reflexivity.
Qed.

(** Three items at 0.1, 0.2 and 0.3, where the sum depends on the
    interpreter's summation and the tax on the rounding; three lines with
    quantities above one; and the two carts of the specification, 500 x 2
    and 100 x 1. *)
Lemma create_order_charges_witness :
  (∃ subtotal tax shipping total,
     sums_to PyFloat.LeftToRight [0.1; 0.2; 0.3]%float subtotal
     ∧ rounded_to_cents (subtotal * 0.18)%float tax
     ∧ shipping = (if (subtotal <? 999)%float then 49%float else 0%float)
     ∧ rounded_to_cents (subtotal + tax + shipping)%float total
     ∧ ∃ resp db' doc,
         create_order PyFloat.LeftToRight
           (cart [cart_item 0.1 1; cart_item 0.2 1; cart_item 0.3 1]) (Some empty_db)
           = (inr resp, Some db')
         ∧ amount resp = total
         ∧ currency resp = "INR"
         ∧ coll "order" db' = coll "order" empty_db ++ [doc]
         ∧ Bson.to_str (_id doc) = order_id resp
         ∧ fields doc !! "subtotal" = Some (VFloat subtotal)
         ∧ fields doc !! "tax" = Some (VFloat tax)
         ∧ fields doc !! "shipping" = Some (VFloat shipping)
         ∧ fields doc !! "total" = Some (VFloat total))
  ∧ charged (create_order PyFloat.LeftToRight
               (cart [cart_item 0.1 1; cart_item 0.2 1; cart_item 0.3 1]) (Some empty_db))
      = Some (49.71%float,
              [Some (VFloat 0.6000000000000001); Some (VFloat 0.11); Some (VFloat 49);
               Some (VFloat 49.71)])
  ∧ charged (create_order PyFloat.Neumaier
               (cart [cart_item 0.1 1; cart_item 0.2 1; cart_item 0.3 1]) (Some empty_db))
      = Some (49.71%float,
              [Some (VFloat 0.6); Some (VFloat 0.11); Some (VFloat 49); Some (VFloat 49.71)])
  ∧ charged (create_order PyFloat.LeftToRight
               (cart [cart_item 19.99 3; cart_item 0.1 3; cart_item 5.25 2]) (Some empty_db))
      = Some (132.51%float,
              [Some (VFloat 70.77); Some (VFloat 12.74); Some (VFloat 49);
               Some (VFloat 132.51)])
  ∧ charged (create_order PyFloat.Neumaier (cart [cart_item 500 2]) (Some empty_db))
      = Some (1180%float,
              [Some (VFloat 1000); Some (VFloat 180); Some (VFloat 0); Some (VFloat 1180)])
  ∧ charged (create_order PyFloat.LeftToRight (cart [cart_item 100 1]) (Some empty_db))
      = Some (167%float,
              [Some (VFloat 100); Some (VFloat 18); Some (VFloat 49); Some (VFloat 167)]).
Proof.
  split.
  - exact (create_order_charges PyFloat.LeftToRight
             (cart [cart_item 0.1 1; cart_item 0.2 1; cart_item 0.3 1]) empty_db
             [0.1; 0.2; 0.3]%float ltac:(discriminate) ltac:(repeat constructor)).
  - repeat split; vm_compute; reflexivity.
Defined.

(** C1 as stated fails for two kinds of request with items: one with a
    quantity too large for a float ends in [OverflowError], and one handled
    while there is no database handle ends in the adapter's exception; in
    both no charges are stored and no amount is returned.  And where charges
    are computed they are computed in floats: for the items 0.1, 0.2 and 0.3
    the subtotal is not the exact sum of the three line totals, under either
    summation. *)
Lemma create_order_no_amount :
  items (cart [cart_item 1 (2 ^ 1024)]) ≠ []
  ∧ create_order PyFloat.Neumaier (cart [cart_item 1 (2 ^ 1024)]) (Some empty_db)
      = (inl OverflowError, Some empty_db)
  ∧ items (cart [cart_item 500 2]) ≠ []
  ∧ create_order PyFloat.Neumaier (cart [cart_item 500 2]) None
      = (inl StoreUnavailable, None)
  ∧ line_totals [cart_item 0.1 1; cart_item 0.2 1; cart_item 0.3 1]
      = inr [0.1; 0.2; 0.3]%float
  ∧ (∀ alg a b c s,
       scaled_value 0.1 = Some a → scaled_value 0.2 = Some b → scaled_value 0.3 = Some c →
       scaled_value (PyFloat.sum alg [0.1; 0.2; 0.3]%float) = Some s →
       s ≠ a + b + c).
Proof.
  split; [discriminate |]. split; [reflexivity |].
  split; [discriminate |]. split; [reflexivity |].
  split; [reflexivity |].
  intros alg a b c s Ha Hb Hc Hs.
  vm_compute in Ha, Hb, Hc.
  injection Ha as <-. injection Hb as <-. injection Hc as <-.
  destruct alg; vm_compute in Hs; injection Hs as <-; vm_compute; discriminate.
Qed.

(** ** Confirmation of an order *)

(** The run of [confirm_order] on an identifier that parses and is found. *)
Lemma confirm_order_existing (db : database) (order_id : string) (status : option string)
    (oid : Bson.ObjectId) (doc : document) :
  Bson.parse order_id = inr oid →
  find (matches (MatchId oid)) (coll "order" db) = Some doc →
  let new_status := if bool_decide (status = Some "paid") then "paid" else "failed" in
  confirm_order (Some order_id) status (Some db)
    = (inr {| confirmed_order_id := order_id; payment_status := new_status |},
       Some (set_coll "order"
               (set_first (MatchId oid) "payment_status" (VStr new_status) (coll "order" db)) db)).
Proof.
  intros Hparse Hfind new_status.
  pose proof (parse_nonempty _ _ Hparse) as Hne.
  unfold confirm_order. rewrite bool_decide_eq_false_2 by exact Hne.
  unfold bind, db_getitem, find_one, update_one, on_db, lift; simpl.
  rewrite Hparse; simpl. rewrite Hfind; simpl. reflexivity.
Qed.

Lemma confirm_order_missing_id (status : option string) (s : option database) :
  confirm_order None status s = (inl (HTTPException 400 "order_id required"), s).
Proof. reflexivity. Qed.

Lemma confirm_order_empty_id (status : option string) (s : option database) :
  confirm_order (Some "") status s = (inl (HTTPException 404 "Order not found"), s).
Proof. reflexivity. Qed.

Lemma confirm_order_unknown_id (db : database) (order_id : string) (status : option string)
    (oid : Bson.ObjectId) :
  Bson.parse order_id = inr oid →
  find (matches (MatchId oid)) (coll "order" db) = None →
  confirm_order (Some order_id) status (Some db)
    = (inl (HTTPException 404 "Order not found"), Some db).
Proof.
  intros Hparse Hfind.
  pose proof (parse_nonempty _ _ Hparse) as Hne.
  unfold confirm_order. rewrite bool_decide_eq_false_2 by exact Hne.
  unfold bind, db_getitem, find_one, on_db, lift; simpl.
  rewrite Hparse; simpl. rewrite Hfind; simpl. reflexivity.
Qed.

(** An identifier that is not the string form of an ObjectId escapes as
    [InvalidId], whatever the store holds. *)
Lemma confirm_order_invalid_id (db : database) (order_id : string) (status : option string) :
  order_id ≠ "" →
  Bson.parse order_id = inl InvalidId →
  confirm_order (Some order_id) status (Some db) = (inl InvalidId, Some db).
Proof.
  intros Hne Hparse.
  unfold confirm_order. rewrite bool_decide_eq_false_2 by exact Hne.
  unfold bind, db_getitem, on_db, lift; simpl. by rewrite Hparse.
Qed.

(** C3. When [order_id] names a stored order, [confirm_order] accepts every
    supplied status: the new payment status is "paid" for the string "paid"
    and "failed" for any other string; the stored order carries it afterwards
    (its other fields, and the other collections, are untouched), and the
    answer holds the order id and that status. *)
Theorem confirm_order_sets_status (db : database) (order_id st : string)
    (oid : Bson.ObjectId) (doc : document) :
  Bson.parse order_id = inr oid →
  find (matches (MatchId oid)) (coll "order" db) = Some doc →
  ∃ new_status db',
    confirm_order (Some order_id) (Some st) (Some db)
      = (inr {| confirmed_order_id := order_id; payment_status := new_status |}, Some db')
    ∧ (st = "paid" → new_status = "paid")
    ∧ (st ≠ "paid" → new_status = "failed")
    ∧ find (matches (MatchId oid)) (coll "order" db')
        = Some {| _id := _id doc; fields := <["payment_status" := VStr new_status]> (fields doc) |}
    ∧ (∀ c, c ≠ "order" → coll c db' = coll c db).
Proof.
  intros Hparse Hfind.
  pose proof (confirm_order_existing db order_id (Some st) oid doc Hparse Hfind) as Hrun.
  cbv zeta in Hrun. do 2 eexists. split; [exact Hrun |].
  split; [| split; [| split]].
  - intros ->. by rewrite bool_decide_eq_true_2.
  - intros Hne. rewrite bool_decide_eq_false_2; [done | congruence].
  - rewrite coll_set_coll. apply find_set_first; [apply matches_id_set | exact Hfind].
  - intros c Hc. by apply coll_set_coll_ne.
Qed.

(** The confirm flow of the specification, on the order placed first. *)
Lemma confirm_order_sets_status_witness :
  (∃ new_status db',
     confirm_order (Some first_order_id) (Some "paid") (Some db_one_order)
       = (inr {| confirmed_order_id := first_order_id; payment_status := new_status |}, Some db')
     ∧ ("paid" = "paid" → new_status = "paid")
     ∧ ("paid" ≠ "paid" → new_status = "failed")
     ∧ find (matches (MatchId (Bson.mint 0))) (coll "order" db')
         = Some {| _id := Bson.mint 0;
                   fields := <["payment_status" := VStr new_status]>
                               (order_doc (cart [cart_item 500 2]) 1000 180 0 1180) |}
     ∧ (∀ c, c ≠ "order" → coll c db' = coll c db_one_order))
  ∧ (∃ new_status db',
     confirm_order (Some first_order_id) (Some "anything-else") (Some db_one_order)
       = (inr {| confirmed_order_id := first_order_id; payment_status := new_status |}, Some db')
     ∧ ("anything-else" = "paid" → new_status = "paid")
     ∧ ("anything-else" ≠ "paid" → new_status = "failed")
     ∧ find (matches (MatchId (Bson.mint 0))) (coll "order" db')
         = Some {| _id := Bson.mint 0;
                   fields := <["payment_status" := VStr new_status]>
                               (order_doc (cart [cart_item 500 2]) 1000 180 0 1180) |}
     ∧ (∀ c, c ≠ "order" → coll c db' = coll c db_one_order)).
Proof.
  split.
  - exact (confirm_order_sets_status db_one_order first_order_id "paid" (Bson.mint 0)
             {| _id := Bson.mint 0; fields := order_doc (cart [cart_item 500 2]) 1000 180 0 1180 |}
             eq_refl eq_refl).
  - exact (confirm_order_sets_status db_one_order first_order_id "anything-else" (Bson.mint 0)
             {| _id := Bson.mint 0; fields := order_doc (cart [cart_item 500 2]) 1000 180 0 1180 |}
             eq_refl eq_refl).
Defined.

(** C10. When [order_id] names a stored order and no status is supplied at
    all, the request is not refused: the stored payment status becomes
    "failed" and the answer says "failed", the same run as for any supplied
    status other than "paid". *)
Theorem confirm_order_status_absent (db : database) (order_id : string)
    (oid : Bson.ObjectId) (doc : document) :
  Bson.parse order_id = inr oid →
  find (matches (MatchId oid)) (coll "order" db) = Some doc →
  ∃ db',
    confirm_order (Some order_id) None (Some db)
      = (inr {| confirmed_order_id := order_id; payment_status := "failed" |}, Some db')
    ∧ find (matches (MatchId oid)) (coll "order" db')
        = Some {| _id := _id doc; fields := <["payment_status" := VStr "failed"]> (fields doc) |}
    ∧ (∀ st, st ≠ "paid" →
         confirm_order (Some order_id) (Some st) (Some db)
           = confirm_order (Some order_id) None (Some db)).
Proof.
  intros Hparse Hfind.
  pose proof (confirm_order_existing db order_id None oid doc Hparse Hfind) as Hrun.
  cbv zeta in Hrun. change (bool_decide (None = Some "paid")) with false in Hrun.
  cbv iota in Hrun. eexists. split; [exact Hrun |]. split.
  - rewrite coll_set_coll. apply find_set_first; [apply matches_id_set | exact Hfind].
  - intros st Hne. rewrite Hrun.
    rewrite (confirm_order_existing db order_id (Some st) oid doc Hparse Hfind).
    rewrite bool_decide_eq_false_2; [done | congruence].
Qed.

Lemma confirm_order_status_absent_witness :
  ∃ db',
    confirm_order (Some first_order_id) None (Some db_one_order)
      = (inr {| confirmed_order_id := first_order_id; payment_status := "failed" |}, Some db')
    ∧ find (matches (MatchId (Bson.mint 0))) (coll "order" db')
        = Some {| _id := Bson.mint 0;
                  fields := <["payment_status" := VStr "failed"]>
                              (order_doc (cart [cart_item 500 2]) 1000 180 0 1180) |}
    ∧ (∀ st, st ≠ "paid" →
         confirm_order (Some first_order_id) (Some st) (Some db_one_order)
           = confirm_order (Some first_order_id) None (Some db_one_order)).
Proof.
  exact (confirm_order_status_absent db_one_order first_order_id (Bson.mint 0)
           {| _id := Bson.mint 0; fields := order_doc (cart [cart_item 500 2]) 1000 180 0 1180 |}
           eq_refl eq_refl).
Defined.

(** C8, at the identifier of the specification's own example: "nonexistent"
    is no well-formed ObjectId, so building the filter raises [InvalidId]
    before any lookup; the handler does not turn it into 404, and no HTTP
    status of its own is raised.  The store is unchanged. *)
Theorem confirm_order_malformed_id (db : database) :
  confirm_order (Some "nonexistent") (Some "paid") (Some db) = (inl InvalidId, Some db)
  ∧ surfaced_status (fst (confirm_order (Some "nonexistent") (Some "paid") (Some db))) = None.
Proof.
  assert (Hrun : confirm_order (Some "nonexistent") (Some "paid") (Some db)
                 = (inl InvalidId, Some db)).
  { apply confirm_order_invalid_id; [discriminate | reflexivity]. }
  rewrite Hrun. split; reflexivity.
Qed.

(** Placing an order and confirming it with the identifier the answer
    carries: the identifier parses back and finds an order, so the
    confirmation goes through with the status asked for. *)
Lemma confirm_after_create (alg : PyFloat.sum_algorithm) (req : CreateOrderRequest)
    (db : database) (lines : list float) (status : option string) :
  items req ≠ [] →
  line_totals (items req) = inr lines →
  ∃ resp db1 db2,
    create_order alg req (Some db) = (inr resp, Some db1)
    ∧ confirm_order (Some (order_id resp)) status (Some db1)
        = (inr {| confirmed_order_id := order_id resp;
                  payment_status := if bool_decide (status = Some "paid")
                                    then "paid" else "failed" |}, Some db2).
Proof.
  intros Hne Hlines.
  destruct (create_order_run alg req db lines Hne Hlines) as (db1 & Hrun & Hcoll).
  cbv zeta in Hrun, Hcoll.
  destruct (find_app_hit (matches (MatchId (Bson.mint (minted db)))) (coll "order" db)
              {| _id := Bson.mint (minted db);
                 fields := order_doc req (PyFloat.sum alg lines)
                   (PyFloat.round (PyFloat.sum alg lines * 0.18)%float 2)
                   (if (PyFloat.sum alg lines <? 999)%float then 49%float else 0%float)
                   (PyFloat.round
                      (PyFloat.sum alg lines
                       + PyFloat.round (PyFloat.sum alg lines * 0.18)%float 2
                       + (if (PyFloat.sum alg lines <? 999)%float then 49 else 0))%float 2) |})
    as [doc Hfind].
  { simpl. by rewrite bool_decide_eq_true_2. }
  rewrite <- Hcoll in Hfind.
  do 3 eexists. split; [exact Hrun |]. simpl order_id.
  exact (confirm_order_existing db1 _ status _ doc (parse_minted _) Hfind).
Qed.

(** ** Blogs *)

Lemma matches_slug (s : string) (d : document) :
  matches (MatchStr "slug" s) d = true ↔ fields d !! "slug" = Some (VStr s).
Proof.
  simpl. destruct (fields d !! "slug") as [[]|]; try (split; [discriminate | done]).
  rewrite String.eqb_eq. split; [by intros -> | by intros [= ->]].
Qed.

Lemma find_slug_taken (s : string) (d : database) :
  is_Some (find (matches (MatchStr "slug" s)) (coll "blogpost" d)) ↔ slug_taken s d.
Proof.
  split.
  - intros [doc Hfind]. apply find_some in Hfind as [Hin Hm].
    exists doc. split; [by apply list_elem_of_In | by apply matches_slug].
  - intros (doc & Hin & Hslug).
    destruct (find _ _) eqn:Hfind; [by eexists |].
    apply list_elem_of_In in Hin.
    pose proof (find_none _ _ Hfind _ Hin) as Hm.
    apply matches_slug in Hslug. congruence.
Qed.

Lemma create_blog_taken (db : database) (blog : BlogCreate) :
  slug_taken (slug blog) db →
  create_blog blog (Some db) = (inl (HTTPException 400 "Slug already exists"), Some db).
Proof.
  intros Htaken. apply find_slug_taken in Htaken as [doc Hfind].
  unfold create_blog. step (find_one_some "blogpost" (MatchStr "slug" (slug blog)) db).
  by rewrite Hfind.
Qed.

Lemma get_blog_missing (db : database) (sl : string) :
  ¬ slug_taken sl db →
  get_blog sl (Some db) = (inl (HTTPException 404 "Not found"), Some db).
Proof.
  intros Hfree. unfold get_blog.
  step (find_one_some "blogpost" (MatchStr "slug" sl) db).
  destruct (find _ _) eqn:Hfind; [| done].
  exfalso. apply Hfree, find_slug_taken. by eexists.
Qed.

(** C5. If some stored blog post already has the request's slug,
    [create_blog] raises "Slug already exists" and leaves the store as it
    was.  If none has, the post is appended to the collection and the new
    identifier is returned, and from then on a request with the same slug is
    refused: two creations in a row give a success and then the conflict. *)
Theorem create_blog_unique_slug (db : database) (blog : BlogCreate) :
  (slug_taken (slug blog) db →
     create_blog blog (Some db) = (inl (HTTPException 400 "Slug already exists"), Some db))
  ∧ (¬ slug_taken (slug blog) db →
     ∃ db' doc,
       create_blog blog (Some db) = (inr (Bson.to_str (_id doc)), Some db')
       ∧ coll "blogpost" db' = coll "blogpost" db ++ [doc]
       ∧ fields doc = blog_model_dump blog
       ∧ (∀ again, slug again = slug blog →
            create_blog again (Some db')
              = (inl (HTTPException 400 "Slug already exists"), Some db'))).
Proof.
  split; [apply create_blog_taken |].
  intros Hfree.
  destruct (create_document_some "blogpost" (blog_model_dump blog) db)
    as (db' & Hrun & Hcoll & _ & _).
  exists db', {| _id := Bson.mint (minted db); fields := blog_model_dump blog |}.
  split; [| split; [exact Hcoll | split; [done |]]].
  - unfold create_blog. step (find_one_some "blogpost" (MatchStr "slug" (slug blog)) db).
    destruct (find _ _) eqn:Hfind.
    + exfalso. apply Hfree, find_slug_taken. by eexists.
    + step Hrun. reflexivity.
  - intros again Hslug. apply create_blog_taken. rewrite Hslug.
    eexists. split; [rewrite Hcoll; apply elem_of_app; right; by apply list_elem_of_singleton |].
    reflexivity.
Qed.

(** The slug "hello" twice in a row, from the empty store. *)
Lemma create_blog_unique_slug_witness :
  ∃ db1 doc,
    create_blog hello_post (Some empty_db) = (inr (Bson.to_str (_id doc)), Some db1)
    ∧ coll "blogpost" db1 = coll "blogpost" empty_db ++ [doc]
    ∧ fields doc = blog_model_dump hello_post
    ∧ (∀ again, slug again = slug hello_post →
         create_blog again (Some db1)
           = (inl (HTTPException 400 "Slug already exists"), Some db1)).
Proof.
  apply (create_blog_unique_slug empty_db hello_post).
  intros (doc & Hin & _). by apply elem_of_nil in Hin.
Defined.

(** ** Consultations *)

(** C6, at any request: the booking is appended and answered with the new
    identifier and "pending", but the stored document holds the request's
    seven fields and no "status" field at all. *)
Theorem book_consultation_stores_no_status (db : database) (req : ConsultationRequest) :
  ∃ db' doc,
    book_consultation req (Some db)
      = (inr {| booking_id := Bson.to_str (_id doc); booking_status := "pending" |}, Some db')
    ∧ coll "consultation" db' = coll "consultation" db ++ [doc]
    ∧ fields doc = consultation_model_dump req
    ∧ dom (fields doc) = {[ "name"; "email"; "phone"; "doctor"; "date"; "time"; "notes" ]}
    ∧ fields doc !! "status" = None.
Proof.
  destruct (create_document_some "consultation" (consultation_model_dump req) db)
    as (db' & Hrun & Hcoll & _ & _).
  exists db', {| _id := Bson.mint (minted db); fields := consultation_model_dump req |}.
  split; [| split; [exact Hcoll | split; [done | split]]].
  - unfold book_consultation. step Hrun. reflexivity.
  - simpl. unfold consultation_model_dump. simpl.
    rewrite !dom_insert_L, dom_empty_L. set_solver.
  - reflexivity.
Qed.

(** C9, amended.  For every limit that is not negative (20 when the caller
    gives none) and every store, [list_consultations] answers with the first
    [limit] consultations in insertion order, or all of them when there are
    fewer: never more than [limit], and the store is not changed. *)
Theorem list_consultations_limit (db : database) (limit : option Z) :
  0 ≤ default 20 limit →
  ∃ docs,
    list_consultations limit (Some db) = (inr docs, Some db)
    ∧ Z.of_nat (length docs) ≤ default 20 limit
    ∧ docs = normalize_id <$> take (Z.to_nat (default 20 limit)) (coll "consultation" db)
    ∧ list_consultations None (Some db) = list_consultations (Some 20) (Some db).
Proof.
  intros Hlimit.
  exists (normalize_id <$> take (Z.to_nat (default 20 limit)) (coll "consultation" db)).
  split; [| split; [| split; reflexivity]].
  - unfold list_consultations. step (get_documents_all "consultation" (default 20 limit) db).
    reflexivity.
  - rewrite length_fmap, length_take. lia.
Qed.

(** Seven bookings, listed with limit 5. *)
Lemma list_consultations_limit_witness :
  ∃ docs,
    list_consultations (Some 5) (Some db_seven_bookings) = (inr docs, Some db_seven_bookings)
    ∧ Z.of_nat (length docs) ≤ 5
    ∧ docs = normalize_id <$> take 5 (coll "consultation" db_seven_bookings)
    ∧ list_consultations None (Some db_seven_bookings)
        = list_consultations (Some 20) (Some db_seven_bookings).
Proof.
  exact (list_consultations_limit db_seven_bookings (Some 5) ltac:(simpl; lia)).
Defined.

(** C9 as stated fails at a negative limit: the answer is a list, and no
    list has at most [-1] elements. *)
Lemma list_consultations_negative_limit :
  list_consultations (Some (-1)) (Some empty_db) = (inr [], Some empty_db)
  ∧ ¬ (Z.of_nat (length (@nil (gmap string value))) ≤ -1).
Proof. split; [reflexivity | simpl; lia]. Qed.

(** ** Products *)

Lemma insert_products_some (ps : list (gmap string value)) (n : Z) (db : database) :
  ∃ db',
    insert_products ps n (Some db) = (inr (n + Z.of_nat (length ps)), Some db')
    ∧ fields <$> coll "product" db' = (fields <$> coll "product" db) ++ ps
    ∧ (∀ c, c ≠ "product" → coll c db' = coll c db).
Proof.
  revert n db. induction ps as [| p ps IH]; intros n db.
  - exists db. simpl. unfold ret. rewrite Z.add_0_r, app_nil_r. done.
  - destruct (create_document_some "product" p db) as (d1 & Hrun & Hcoll & Hother & _).
    destruct (IH (n + 1) d1) as (d2 & Hrun2 & Hcoll2 & Hother2).
    exists d2. split; [| split].
    + cbn [insert_products]. step Hrun. rewrite Hrun2.
      do 2 f_equal. rewrite length_cons. lia.
    + rewrite Hcoll2, Hcoll, fmap_app. simpl. by rewrite <- app_assoc.
    + intros c Hc. rewrite Hother2 by done. apply Hother. congruence.
Qed.

(** The catalog: ten products "Product 1" to "Product 10", priced
    499 + 50 (N - 1), with the sku "SKU" followed by N padded with zeros to
    three digits (the tenth is SKU010) and 20 in stock. *)
Lemma SAMPLE_PRODUCTS_catalog :
  catalog_row <$> SAMPLE_PRODUCTS
    = [ row "Product 1" 499 "SKU001" 20; row "Product 2" 549 "SKU002" 20;
        row "Product 3" 599 "SKU003" 20; row "Product 4" 649 "SKU004" 20;
        row "Product 5" 699 "SKU005" 20; row "Product 6" 749 "SKU006" 20;
        row "Product 7" 799 "SKU007" 20; row "Product 8" 849 "SKU008" 20;
        row "Product 9" 899 "SKU009" 20; row "Product 10" 949 "SKU010" 20 ]
  ∧ increasing [499; 549; 599; 649; 699; 749; 799; 849; 899; 949]%float = true.
Proof. split; [vm_compute; reflexivity | reflexivity]. Qed.

(** C4.  On an initialised store [seed_products] inserts nothing: the first
    thing it does is to take the truth value of the handle, in
    [... if db else 0], which the driver's handle refuses with
    [NotImplementedError].  Whatever the flag and whatever the store holds,
    and so for [force = false] on an empty product collection, the request
    ends in that exception, which is answered with 500, and the store is as
    it was: no product is inserted and none is deleted. *)
Theorem seed_products_handle_truth (body : SeedRequest) (db : database) :
  seed_products body (Some db) = (inl NotImplementedError, Some db)
  ∧ answered_status (fst (seed_products body (Some db))) = Some 500
  ∧ coll "product" empty_db = []
  ∧ seed_products {| force := false |} (Some empty_db)
      = (inl NotImplementedError, Some empty_db).
Proof. repeat split. Qed.

(** ** The statuses of the errors *)

(** An [HTTPException] is answered with the status it carries. *)
Lemma surfaced_answered {A} (r : exn + A) (c : Z) :
  surfaced_status r = Some c → answered_status r = Some c.
Proof. by destruct r as [[] |]. Qed.

(** C7, amended.  The errors are surfaced with these statuses.  The handlers
    raise an [HTTPException] with 400 for a bad request (empty cart, missing
    order id), with 400 for the conflict of a duplicate slug, and with 404
    for a lookup that finds nothing (a blog by slug, an order by a
    well-formed id).  A body that does not fit the model of its route, shown
    for the blog and the consultation routes, is answered with 422 before
    the handler runs, and nothing is written.  An unavailable store has no
    status of its own in [main.py]: a handler that subscripts the handle
    while there is none ([create_blog], [get_blog], [confirm_order] on a
    non-empty identifier, forced seeding) ends in a [TypeError] that nothing
    catches, which is answered with 500. *)
Theorem handler_error_statuses :
  (∀ alg req s,
     items req = [] → surfaced_status (fst (create_order alg req s)) = Some 400)
  ∧ (∀ status s, surfaced_status (fst (confirm_order None status s)) = Some 400)
  ∧ (∀ db blog,
       slug_taken (slug blog) db →
       surfaced_status (fst (create_blog blog (Some db))) = Some 400)
  ∧ (∀ db sl,
       ¬ slug_taken sl db → surfaced_status (fst (get_blog sl (Some db))) = Some 404)
  ∧ (∀ db order_id oid status,
       Bson.parse order_id = inr oid →
       find (matches (MatchId oid)) (coll "order" db) = None →
       surfaced_status (fst (confirm_order (Some order_id) status (Some db))) = Some 404)
  ∧ (∀ body s,
       BlogCreate_validate body = None →
       answered_status (fst (post_blogs body s)) = Some 422 ∧ snd (post_blogs body s) = s)
  ∧ (∀ body s,
       ConsultationRequest_validate body = None →
       answered_status (fst (post_consultations body s)) = Some 422
       ∧ snd (post_consultations body s) = s)
  ∧ (∀ blog, answered_status (fst (create_blog blog None)) = Some 500)
  ∧ (∀ sl, answered_status (fst (get_blog sl None)) = Some 500)
  ∧ (∀ order_id status,
       order_id ≠ "" →
       answered_status (fst (confirm_order (Some order_id) status None)) = Some 500)
  ∧ answered_status (fst (seed_products {| force := true |} None)) = Some 500.
Proof.
  repeat apply conj.
  - intros alg req s Hempty. unfold create_order. by rewrite Hempty.
  - intros status s. by rewrite confirm_order_missing_id.
  - intros db blog Htaken. by rewrite create_blog_taken.
  - intros db sl Hfree. by rewrite get_blog_missing.
  - intros db order_id oid status Hparse Hfind.
    by rewrite (confirm_order_unknown_id db order_id status oid).
  - intros body s Hbody. unfold post_blogs, with_body. by rewrite Hbody.
  - intros body s Hbody. unfold post_consultations, with_body. by rewrite Hbody.
  - done.
  - done.
  - intros order_id status Hne. unfold confirm_order.
    by rewrite bool_decide_eq_false_2.
  - done.
Qed.

Lemma handler_error_statuses_witness :
  surfaced_status (fst (create_order PyFloat.LeftToRight (cart []) (Some empty_db))) = Some 400
  ∧ surfaced_status (fst (create_blog hello_post (Some db_hello))) = Some 400
  ∧ surfaced_status (fst (get_blog "missing" (Some empty_db))) = Some 404
  ∧ surfaced_status
      (fst (confirm_order (Some "0123456789abcdef01234567") (Some "paid") (Some db_one_order)))
    = Some 404
  ∧ (answered_status
       (fst (post_blogs {[ "title" := VStr "Hello"; "content" := VStr "First post" ]}
               (Some db_hello))) = Some 422
     ∧ snd (post_blogs {[ "title" := VStr "Hello"; "content" := VStr "First post" ]}
              (Some db_hello)) = Some db_hello)
  ∧ (answered_status
       (fst (post_consultations
               (<["name" := VInt 7]> (consultation_model_dump (booking "a")))
               (Some empty_db))) = Some 422
     ∧ snd (post_consultations
              (<["name" := VInt 7]> (consultation_model_dump (booking "a")))
              (Some empty_db)) = Some empty_db)
  ∧ answered_status (fst (confirm_order (Some "nonexistent") (Some "paid") None)) = Some 500.
Proof.
  destruct handler_error_statuses
    as (Hcart & _ & Hdup & Hblog & Horder & Hpost & Hbook & _ & _ & Hconfirm & _).
  repeat apply conj.
  - exact (Hcart PyFloat.LeftToRight (cart []) (Some empty_db) eq_refl).
  - apply Hdup, find_slug_taken. vm_compute. by eexists.
  - apply Hblog. intros (doc & Hin & _). by apply elem_of_nil in Hin.
  - exact (Horder db_one_order "0123456789abcdef01234567"
             [1; 35; 69; 103; 137; 171; 205; 239; 1; 35; 69; 103]%N (Some "paid")
             eq_refl eq_refl).
  - apply Hpost. vm_compute. reflexivity.
  - apply Hpost. vm_compute. reflexivity.
  - apply Hbook. vm_compute. reflexivity.
  - apply Hbook. vm_compute. reflexivity.
  - apply Hconfirm. discriminate.
Defined.

(** C7 as stated fails in three places: the list gives 404 for the conflict
    and the handler raises 400; it gives 400 for a lookup that finds nothing
    and the handler raises 404; and it gives 503 for an unavailable store,
    while a handler that finds no handle is answered with 500. *)
Lemma listed_statuses_differ :
  surfaced_status (fst (create_blog hello_post (Some db_hello))) = Some 400
  ∧ surfaced_status (fst (create_blog hello_post (Some db_hello)))
      ≠ Some (Taxonomy.listed_status Taxonomy.Conflict)
  ∧ surfaced_status (fst (get_blog "missing" (Some empty_db))) = Some 404
  ∧ surfaced_status (fst (get_blog "missing" (Some empty_db)))
      ≠ Some (Taxonomy.listed_status Taxonomy.NotFound)
  ∧ fst (get_blog "hello" None) = inl TypeError
  ∧ answered_status (fst (get_blog "hello" None)) = Some 500
  ∧ answered_status (fst (get_blog "hello" None))
      ≠ Some (Taxonomy.listed_status Taxonomy.StoreUnavailable).
Proof.
  assert (Hdup : surfaced_status (fst (create_blog hello_post (Some db_hello))) = Some 400)
    by (vm_compute; reflexivity).
  assert (Hmiss : surfaced_status (fst (get_blog "missing" (Some empty_db))) = Some 404)
    by (vm_compute; reflexivity).
  rewrite Hdup, Hmiss. repeat split; discriminate.
Qed.

(** * Further properties of the handlers *)

(** ** Confirmation: what it leaves alone, and repeated calls *)

(** [$set] keeps every document in its place with its identifier, touches no
    other field, and leaves the documents that do not match as they are. *)
Lemma set_first_lookup (q : query) (k : string) (v : value) (docs : list document)
    (i : nat) (d : document) :
  docs !! i = Some d →
  ∃ d',
    set_first q k v docs !! i = Some d'
    ∧ _id d' = _id d
    ∧ (∀ k', k' ≠ k → fields d' !! k' = fields d !! k')
    ∧ (matches q d = false → d' = d).
Proof.
  revert i. induction docs as [| x docs IH]; intros i Hi; [done |].
  cbn [set_first]. destruct (matches q x) eqn:Hm.
  - destruct i as [| i]; simpl in *.
    + injection Hi as <-. eexists. split; [done |]. split; [done |]. split.
      * intros k' Hk. simpl. by rewrite lookup_insert_ne.
      * congruence.
    + exists d. repeat split; done.
  - destruct i as [| i]; simpl in *.
    + injection Hi as <-. exists x. repeat split; done.
    + by apply IH.
Qed.

Lemma length_set_first (q : query) (k : string) (v : value) (docs : list document) :
  length (set_first q k v docs) = length docs.
Proof.
  induction docs as [| d docs IH]; simpl; [done |].
  destruct (matches q d); simpl; by rewrite ?IH.
Qed.

(** Writing a field twice on the first match is writing the second value. *)
Lemma set_first_twice (oid : Bson.ObjectId) (k : string) (v1 v2 : value) (docs : list document) :
  set_first (MatchId oid) k v2 (set_first (MatchId oid) k v1 docs)
    = set_first (MatchId oid) k v2 docs.
Proof.
  induction docs as [| d docs IH]; [done |].
  cbn [set_first]. destruct (matches (MatchId oid) d) eqn:Hm.
  - cbn [set_first]. rewrite matches_id_set, Hm. simpl. by rewrite insert_insert_eq.
  - cbn [set_first]. by rewrite Hm, IH.
Qed.

Lemma set_coll_twice (c : string) (l1 l2 : list document) (d : database) :
  set_coll c l2 (set_coll c l1 d) = set_coll c l2 d.
Proof. unfold set_coll; simpl. by rewrite insert_insert_eq. Qed.

(** X1.  A successful confirmation changes the payment status of one order and
    nothing else: every order keeps its place, its identifier and its other
    fields, the orders with another identifier are untouched, and so are the
    other collections and the count of minted identifiers. *)
Theorem confirm_order_changes_only_status (db : database) (order_id : string)
    (status : option string) (oid : Bson.ObjectId) (doc : document) :
  Bson.parse order_id = inr oid →
  find (matches (MatchId oid)) (coll "order" db) = Some doc →
  ∃ resp db',
    confirm_order (Some order_id) status (Some db) = (inr resp, Some db')
    ∧ length (coll "order" db') = length (coll "order" db)
    ∧ (∀ i d, coll "order" db !! i = Some d →
         ∃ d', coll "order" db' !! i = Some d'
               ∧ _id d' = _id d
               ∧ (∀ k, k ≠ "payment_status" → fields d' !! k = fields d !! k)
               ∧ (_id d ≠ oid → d' = d))
    ∧ (∀ c, c ≠ "order" → coll c db' = coll c db)
    ∧ minted db' = minted db.
Proof.
  intros Hparse Hfind.
  pose proof (confirm_order_existing db order_id status oid doc Hparse Hfind) as Hrun.
  cbv zeta in Hrun. do 2 eexists. split; [exact Hrun |].
  rewrite coll_set_coll. split; [apply length_set_first |]. split; [| split].
  - intros i d Hi.
    destruct (set_first_lookup (MatchId oid) "payment_status"
                (VStr (if bool_decide (status = Some "paid") then "paid" else "failed"))
                _ i d Hi) as (d' & Hd' & Hid & Hfields & Hsame).
    exists d'. split; [exact Hd' |]. split; [exact Hid |]. split; [exact Hfields |].
    intros Hne. apply Hsame. simpl. by rewrite bool_decide_eq_false_2.
  - intros c Hc. by apply coll_set_coll_ne.
  - reflexivity.
Qed.

Lemma confirm_order_changes_only_status_witness :
  ∃ resp db',
    confirm_order (Some first_order_id) (Some "paid") (Some db_one_order) = (inr resp, Some db')
    ∧ length (coll "order" db') = length (coll "order" db_one_order)
    ∧ (∀ i d, coll "order" db_one_order !! i = Some d →
         ∃ d', coll "order" db' !! i = Some d'
               ∧ _id d' = _id d
               ∧ (∀ k, k ≠ "payment_status" → fields d' !! k = fields d !! k)
               ∧ (_id d ≠ Bson.mint 0 → d' = d))
    ∧ (∀ c, c ≠ "order" → coll c db' = coll c db_one_order)
    ∧ minted db' = minted db_one_order.
Proof.
  exact (confirm_order_changes_only_status db_one_order first_order_id (Some "paid")
           (Bson.mint 0)
           {| _id := Bson.mint 0; fields := order_doc (cart [cart_item 500 2]) 1000 180 0 1180 |}
           eq_refl eq_refl).
Defined.

(** X2.  The later confirmation decides: confirming an order that was confirmed
    before, with any status, gives the answer and the store that the second
    call alone would have given.  So a paid order can be turned to failed (and
    back), and repeating a confirmation changes nothing. *)
Theorem confirm_order_last_wins (db : database) (order_id : string)
    (st1 st2 : option string) (oid : Bson.ObjectId) (doc : document) :
  Bson.parse order_id = inr oid →
  find (matches (MatchId oid)) (coll "order" db) = Some doc →
  ∃ r1 db1,
    confirm_order (Some order_id) st1 (Some db) = (inr r1, Some db1)
    ∧ confirm_order (Some order_id) st2 (Some db1)
        = confirm_order (Some order_id) st2 (Some db).
Proof.
  intros Hparse Hfind.
  pose proof (confirm_order_existing db order_id st1 oid doc Hparse Hfind) as Hrun1.
  cbv zeta in Hrun1. do 2 eexists. split; [exact Hrun1 |].
  rewrite (confirm_order_existing db order_id st2 oid doc Hparse Hfind).
  erewrite confirm_order_existing; [| exact Hparse |].
  - rewrite coll_set_coll, set_first_twice, set_coll_twice. reflexivity.
  - rewrite coll_set_coll. apply find_set_first; [apply matches_id_set | exact Hfind].
Qed.

(** Paid, then failed: the order placed first ends up failed. *)
Lemma confirm_order_last_wins_witness :
  ∃ r1 db1,
    confirm_order (Some first_order_id) (Some "paid") (Some db_one_order) = (inr r1, Some db1)
    ∧ confirm_order (Some first_order_id) (Some "failed") (Some db1)
        = confirm_order (Some first_order_id) (Some "failed") (Some db_one_order).
Proof.
  exact (confirm_order_last_wins db_one_order first_order_id (Some "paid") (Some "failed")
           (Bson.mint 0)
           {| _id := Bson.mint 0; fields := order_doc (cart [cart_item 500 2]) 1000 180 0 1180 |}
           eq_refl eq_refl).
Defined.

(** ** Checkout: the new order, the flow to confirmation, overflow *)

(** X3.  Every order [create_order] stores starts as pending with the mock
    provider and the currency INR, carries the customer's data and the items
    in the order of the cart, and is appended after the orders already there;
    no other collection changes, and exactly one identifier is minted. *)
Theorem create_order_new_order_pending (alg : PyFloat.sum_algorithm)
    (req : CreateOrderRequest) (db : database) (lines : list float) :
  items req ≠ [] →
  Forall2 (λ i x, PyFloat.mul_int (price i) (quantity i) = inr x) (items req) lines →
  ∃ resp db' doc,
    create_order alg req (Some db) = (inr resp, Some db')
    ∧ coll "order" db' = coll "order" db ++ [doc]
    ∧ fields doc !! "payment_status" = Some (VStr "pending")
    ∧ fields doc !! "payment_provider" = Some (VStr "mock")
    ∧ fields doc !! "currency" = Some (VStr "INR")
    ∧ fields doc !! "customer_name" = Some (VStr (customer_name req))
    ∧ fields doc !! "customer_email" = Some (VStr (customer_email req))
    ∧ fields doc !! "customer_address" = Some (VStr (customer_address req))
    ∧ fields doc !! "items" = Some (VList (item_model_dump <$> items req))
    ∧ (∀ c, c ≠ "order" → coll c db' = coll c db)
    ∧ minted db' = N.succ (minted db).
Proof.
  intros Hne Hlines. apply line_totals_Forall2 in Hlines.
  set (subtotal := PyFloat.sum alg lines).
  set (tax := PyFloat.round (subtotal * 0.18)%float 2).
  set (shipping := if (subtotal <? 999)%float then 49%float else 0%float).
  set (total := PyFloat.round (subtotal + tax + shipping)%float 2).
  destruct (create_document_some "order" (order_doc req subtotal tax shipping total) db)
    as (db' & Hrun & Hcoll & Hother & Hminted).
  eexists _, db', _. split; [| split; [exact Hcoll |]].
  - unfold create_order. destruct (items req) as [| i its] eqn:Hits; [done |].
    rewrite (bind_run _ _ (Some db) (Some db) lines) by (by rewrite Hlines).
    fold subtotal; fold tax; fold shipping; fold total.
    step Hrun. reflexivity.
  - cbn [fields]. do 7 (split; [reflexivity |]). split; [| exact Hminted].
    intros c Hc. apply Hother. congruence.
Qed.

Lemma create_order_new_order_pending_witness :
  ∃ resp db' doc,
    create_order PyFloat.Neumaier (cart [cart_item 500 2]) (Some db_hello) = (inr resp, Some db')
    ∧ coll "order" db' = coll "order" db_hello ++ [doc]
    ∧ fields doc !! "payment_status" = Some (VStr "pending")
    ∧ fields doc !! "payment_provider" = Some (VStr "mock")
    ∧ fields doc !! "currency" = Some (VStr "INR")
    ∧ fields doc !! "customer_name" = Some (VStr "Asha")
    ∧ fields doc !! "customer_email" = Some (VStr "asha@example.com")
    ∧ fields doc !! "customer_address" = Some (VStr "12 Lake Road")
    ∧ fields doc !! "items" = Some (VList (item_model_dump <$> [cart_item 500 2]))
    ∧ (∀ c, c ≠ "order" → coll c db' = coll c db_hello)
    ∧ minted db' = N.succ (minted db_hello).
Proof.
  exact (create_order_new_order_pending PyFloat.Neumaier (cart [cart_item 500 2]) db_hello
           [1000%float] ltac:(discriminate) ltac:(repeat constructor)).
Defined.

(** X4.  The flow of the payment link: the identifier [create_order] answers with
    is accepted by [confirm_order] (it parses back to the minted identifier,
    which finds an order), whatever status is sent, and looking that
    identifier up afterwards shows the status the confirmation answered
    with. *)
Theorem checkout_confirm_flow (alg : PyFloat.sum_algorithm) (req : CreateOrderRequest)
    (db : database) (lines : list float) (status : option string) :
  items req ≠ [] →
  Forall2 (λ i x, PyFloat.mul_int (price i) (quantity i) = inr x) (items req) lines →
  ∃ resp db1 confirmed db2 oid doc,
    create_order alg req (Some db) = (inr resp, Some db1)
    ∧ payment_url resp = "/api/checkout/confirm?order_id=" +:+ order_id resp +:+ "&status=paid"
    ∧ confirm_order (Some (order_id resp)) status (Some db1) = (inr confirmed, Some db2)
    ∧ confirmed_order_id confirmed = order_id resp
    ∧ payment_status confirmed
        = (if bool_decide (status = Some "paid") then "paid" else "failed")
    ∧ Bson.parse (order_id resp) = inr oid
    ∧ find (matches (MatchId oid)) (coll "order" db2) = Some doc
    ∧ fields doc !! "payment_status" = Some (VStr (payment_status confirmed)).
Proof.
  intros Hne Hlines. apply line_totals_Forall2 in Hlines.
  destruct (create_order_run alg req db lines Hne Hlines) as (db1 & Hrun & Hcoll).
  cbv zeta in Hrun, Hcoll.
  match type of Hcoll with _ = _ ++ [?d] =>
    destruct (find_app_hit (matches (MatchId (Bson.mint (minted db)))) (coll "order" db) d)
      as [doc Hfind]
  end.
  { simpl. by rewrite bool_decide_eq_true_2. }
  rewrite <- Hcoll in Hfind.
  pose proof (confirm_order_existing db1 _ status _ doc (parse_minted (minted db)) Hfind) as Hc.
  cbv zeta in Hc.
  eexists _, db1, _, _, (Bson.mint (minted db)), _.
  split; [exact Hrun |]. split; [reflexivity |]. cbn [order_id].
  split; [exact Hc |]. split; [reflexivity |]. split; [reflexivity |].
  split; [apply parse_minted |]. split.
  - rewrite coll_set_coll. apply find_set_first; [apply matches_id_set | exact Hfind].
  - cbn [fields payment_status]. by rewrite lookup_insert_eq.
Qed.

Lemma checkout_confirm_flow_witness :
  ∃ resp db1 confirmed db2 oid doc,
    create_order PyFloat.LeftToRight (cart [cart_item 100 1]) (Some empty_db)
      = (inr resp, Some db1)
    ∧ payment_url resp = "/api/checkout/confirm?order_id=" +:+ order_id resp +:+ "&status=paid"
    ∧ confirm_order (Some (order_id resp)) (Some "paid") (Some db1) = (inr confirmed, Some db2)
    ∧ confirmed_order_id confirmed = order_id resp
    ∧ payment_status confirmed = "paid"
    ∧ Bson.parse (order_id resp) = inr oid
    ∧ find (matches (MatchId oid)) (coll "order" db2) = Some doc
    ∧ fields doc !! "payment_status" = Some (VStr (payment_status confirmed)).
Proof.
  exact (checkout_confirm_flow PyFloat.LeftToRight (cart [cart_item 100 1]) empty_db
           [100%float] (Some "paid") ltac:(discriminate) ltac:(repeat constructor)).
Defined.

(** The only exception a line total can raise is [OverflowError]. *)
Lemma line_totals_overflow (its : list OrderItemIn) :
  Exists (λ i, PyFloat.of_int (quantity i) = inl OverflowError) its →
  line_totals its = inl OverflowError.
Proof.
  induction its as [| i its IH]; intros Hex; [by apply Exists_nil in Hex |].
  cbn [line_totals]. unfold PyFloat.mul_int.
  destruct (PyFloat.of_int (quantity i)) as [e | y] eqn:Hi.
  - unfold PyFloat.of_int in Hi.
    destruct (is_infinity _); [by injection Hi as <- | discriminate].
  - apply Exists_cons in Hex as [Hhead | Htail]; [congruence |].
    by rewrite (IH Htail).
Qed.

(** X5.  A cart in which some quantity is too large for a float is answered with
    an [OverflowError], which is no HTTP error of the handler's, and nothing
    is stored: the store is as it was, whatever the other items are. *)
Theorem create_order_overflow (alg : PyFloat.sum_algorithm) (req : CreateOrderRequest)
    (s : option database) :
  Exists (λ i, PyFloat.of_int (quantity i) = inl OverflowError) (items req) →
  create_order alg req s = (inl OverflowError, s)
  ∧ surfaced_status (fst (create_order alg req s)) = None.
Proof.
  intros Hex.
  assert (Hrun : create_order alg req s = (inl OverflowError, s)).
  { unfold create_order. destruct (items req) as [| i its] eqn:Hits.
    - by apply Exists_nil in Hex.
    - unfold bind, lift. by rewrite (line_totals_overflow _ Hex). }
  by rewrite Hrun.
Qed.

Lemma create_order_overflow_witness :
  create_order PyFloat.Neumaier (cart [cart_item 500 2; cart_item 1 (2 ^ 1024)]) (Some db_hello)
    = (inl OverflowError, Some db_hello)
  ∧ surfaced_status
      (fst (create_order PyFloat.Neumaier (cart [cart_item 500 2; cart_item 1 (2 ^ 1024)])
              (Some db_hello))) = None.
Proof.
  exact (create_order_overflow PyFloat.Neumaier
           (cart [cart_item 500 2; cart_item 1 (2 ^ 1024)]) (Some db_hello)
           ltac:(apply Exists_cons; right; apply Exists_cons; left; reflexivity)).
Defined.

(** ** Blogs: unique slugs, and reading back what was written *)

Lemma elem_of_slugs (s : string) (d : database) : s ∈ slugs d ↔ slug_taken s d.
Proof.
  unfold slugs, slug_taken. rewrite list_elem_of_omap. split.
  - intros (doc & Hin & Hs). exists doc. split; [done |].
    destruct (fields doc !! "slug") as [[]|]; try discriminate. by injection Hs as ->.
  - intros (doc & Hin & Hs). exists doc. split; [done |]. by rewrite Hs.
Qed.

Lemma find_app_miss {A} (p : A → bool) (l : list A) (x : A) :
  find p l = None → p x = true → find p (l ++ [x]) = Some x.
Proof.
  intros Hl Hx. induction l as [| y l IH]; simpl in *; [by rewrite Hx |].
  destruct (p y); [discriminate | by apply IH].
Qed.

(** What [find] finds is the earliest element that satisfies the test. *)
Lemma find_first {A} (p : A → bool) (l : list A) (x : A) :
  find p l = Some x →
  ∃ i, l !! i = Some x ∧ p x = true ∧ ∀ j y, (j < i)%nat → l !! j = Some y → p y = false.
Proof.
  induction l as [| z l IH]; simpl; [discriminate |].
  destruct (p z) eqn:Hz.
  - intros [= <-]. exists 0%nat. repeat split; [done |]. intros j y Hj. lia.
  - intros Hfind. destruct (IH Hfind) as (i & Hi & Hp & Hbefore).
    exists (S i). repeat split; [done | done |].
    intros [| j] y Hj Hy; simpl in Hy.
    + by injection Hy as <-.
    + apply (Hbefore j); [lia | done].
Qed.

(** The run of [create_blog] on a free slug. *)
Lemma create_blog_free (db : database) (blog : BlogCreate) :
  ¬ slug_taken (slug blog) db →
  ∃ db',
    create_blog blog (Some db) = (inr (Bson.to_str (Bson.mint (minted db))), Some db')
    ∧ coll "blogpost" db'
        = coll "blogpost" db ++ [{| _id := Bson.mint (minted db); fields := blog_model_dump blog |}]
    ∧ (∀ c, c ≠ "blogpost" → coll c db' = coll c db).
Proof.
  intros Hfree.
  destruct (create_document_some "blogpost" (blog_model_dump blog) db)
    as (db' & Hrun & Hcoll & Hother & _).
  exists db'. split; [| split; [exact Hcoll |]].
  - unfold create_blog. step (find_one_some "blogpost" (MatchStr "slug" (slug blog)) db).
    destruct (find _ _) eqn:Hfind.
    + exfalso. apply Hfree, find_slug_taken. by eexists.
    + step Hrun. reflexivity.
  - intros c Hc. apply Hother. congruence.
Qed.

(** X6.  [create_blog] keeps the slugs of the collection pairwise distinct: if no
    two stored posts share a slug before the call, none do after it, whether
    the call stored the post or refused it. *)
Theorem create_blog_keeps_slugs_unique (db : database) (blog : BlogCreate) :
  NoDup (slugs db) →
  ∃ r db', create_blog blog (Some db) = (r, Some db') ∧ NoDup (slugs db').
Proof.
  intros Hnodup.
  destruct (decide (slug blog ∈ slugs db)) as [Hin | Hnotin].
  - exists (inl (HTTPException 400 "Slug already exists")), db. split; [| done].
    apply create_blog_taken. by apply elem_of_slugs.
  - destruct (create_blog_free db blog) as (db' & Hrun & Hcoll & _).
    { by rewrite <- elem_of_slugs. }
    eexists _, db'. split; [exact Hrun |].
    unfold slugs in *. rewrite Hcoll, omap_app. simpl.
    apply NoDup_app. split; [done |]. split; [| apply NoDup_singleton].
    intros s Hs Hs'. apply list_elem_of_singleton in Hs'. by subst s.
Qed.

Lemma create_blog_keeps_slugs_unique_witness :
  ∃ r db', create_blog hello_post (Some db_hello) = (r, Some db') ∧ NoDup (slugs db').
Proof.
  apply (create_blog_keeps_slugs_unique db_hello hello_post).
  vm_compute. apply NoDup_singleton.
Defined.

(** X7.  Writing a post and reading it back: after [create_blog] stored a post
    under a free slug, [get_blog] on that slug answers with the post's fields
    and, under "id", the identifier [create_blog] returned. *)
Theorem create_blog_then_get_blog (db : database) (blog : BlogCreate) :
  ¬ slug_taken (slug blog) db →
  ∃ bid db',
    create_blog blog (Some db) = (inr bid, Some db')
    ∧ get_blog (slug blog) (Some db')
        = (inr (<["id" := VStr bid]> (blog_model_dump blog)), Some db').
Proof.
  intros Hfree. destruct (create_blog_free db blog Hfree) as (db' & Hrun & Hcoll & _).
  eexists _, db'. split; [exact Hrun |].
  unfold get_blog. step (find_one_some "blogpost" (MatchStr "slug" (slug blog)) db').
  rewrite Hcoll, find_app_miss; [reflexivity | |].
  - destruct (find _ _) eqn:Hfind; [| done].
    exfalso. apply Hfree, find_slug_taken. by eexists.
  - apply matches_slug. reflexivity.
Qed.

Lemma create_blog_then_get_blog_witness :
  ∃ bid db',
    create_blog hello_post (Some empty_db) = (inr bid, Some db')
    ∧ get_blog "hello" (Some db')
        = (inr (<["id" := VStr bid]> (blog_model_dump hello_post)), Some db').
Proof.
  apply (create_blog_then_get_blog empty_db hello_post).
  intros (doc & Hin & _). by apply elem_of_nil in Hin.
Defined.

(** X8.  [get_blog] on a slug some stored post has: the answer is the earliest
    stored post with that slug, with "id" set to the string of its
    identifier, and the store is not changed. *)
Theorem get_blog_earliest (db : database) (sl : string) :
  slug_taken sl db →
  ∃ i doc,
    get_blog sl (Some db) = (inr (normalize_id doc), Some db)
    ∧ coll "blogpost" db !! i = Some doc
    ∧ fields doc !! "slug" = Some (VStr sl)
    ∧ normalize_id doc !! "id" = Some (VStr (Bson.to_str (_id doc)))
    ∧ (∀ j d, (j < i)%nat → coll "blogpost" db !! j = Some d →
         fields d !! "slug" ≠ Some (VStr sl)).
Proof.
  intros Htaken. apply find_slug_taken in Htaken as [doc Hfind].
  destruct (find_first _ _ _ Hfind) as (i & Hi & Hm & Hbefore).
  exists i, doc. split; [| split; [exact Hi | split; [by apply matches_slug | split]]].
  - unfold get_blog. step (find_one_some "blogpost" (MatchStr "slug" sl) db).
    by rewrite Hfind.
  - unfold normalize_id. by rewrite lookup_insert_eq.
  - intros j d Hj Hd Hslug. apply matches_slug in Hslug.
    rewrite (Hbefore j d Hj Hd) in Hslug. discriminate.
Qed.

Lemma get_blog_earliest_witness :
  ∃ i doc,
    get_blog "hello" (Some db_hello) = (inr (normalize_id doc), Some db_hello)
    ∧ coll "blogpost" db_hello !! i = Some doc
    ∧ fields doc !! "slug" = Some (VStr "hello")
    ∧ normalize_id doc !! "id" = Some (VStr (Bson.to_str (_id doc)))
    ∧ (∀ j d, (j < i)%nat → coll "blogpost" db_hello !! j = Some d →
         fields d !! "slug" ≠ Some (VStr "hello")).
Proof.
  apply (get_blog_earliest db_hello "hello").
  apply find_slug_taken. vm_compute. by eexists.
Defined.

(** ** Consultations: no check for double booking *)

(** X10.  [book_consultation] never refuses and never merges: the same request
    sent twice is answered "pending" twice and stored twice, the two
    documents next to each other with the same fields. *)
Theorem book_consultation_twice (db : database) (req : ConsultationRequest) :
  ∃ r1 db1 r2 db2 d1 d2,
    book_consultation req (Some db) = (inr r1, Some db1)
    ∧ book_consultation req (Some db1) = (inr r2, Some db2)
    ∧ booking_status r1 = "pending" ∧ booking_status r2 = "pending"
    ∧ coll "consultation" db2 = coll "consultation" db ++ [d1; d2]
    ∧ fields d1 = consultation_model_dump req
    ∧ fields d2 = consultation_model_dump req.
Proof.
  destruct (create_document_some "consultation" (consultation_model_dump req) db)
    as (db1 & Hrun1 & Hcoll1 & _ & _).
  destruct (create_document_some "consultation" (consultation_model_dump req) db1)
    as (db2 & Hrun2 & Hcoll2 & _ & _).
  eexists _, db1, _, db2, _, _. split; [| split; [| split; [| split; [| split]]]].
  - unfold book_consultation. step Hrun1. reflexivity.
  - unfold book_consultation. step Hrun2. reflexivity.
  - reflexivity.
  - reflexivity.
  - rewrite Hcoll2, Hcoll1, <- app_assoc. reflexivity.
  - split; reflexivity.
Qed.

(** ** The store without a handle *)

(** X11.  While [db] is [None], the handlers that subscript it raise a [TypeError]
    of the interpreter and no HTTP error: [create_blog], [get_blog], forced
    seeding, and [confirm_order] on any non-empty identifier, well-formed or
    not.  The handle stays [None]. *)
Theorem no_handle_type_error :
  (∀ blog, create_blog blog None = (inl TypeError, None))
  ∧ (∀ sl, get_blog sl None = (inl TypeError, None))
  ∧ seed_products {| force := true |} None = (inl TypeError, None)
  ∧ (∀ order_id status,
       order_id ≠ "" → confirm_order (Some order_id) status None = (inl TypeError, None))
  ∧ surfaced_status (@inl exn unit TypeError) = None.
Proof.
  split; [done |]. split; [done |]. split; [done |]. split; [| done].
  intros order_id status Hne.
  unfold confirm_order. by rewrite bool_decide_eq_false_2.
Qed.

Lemma no_handle_type_error_witness :
  confirm_order (Some "nonexistent") (Some "paid") None = (inl TypeError, None)
  ∧ confirm_order (Some first_order_id) None None = (inl TypeError, None).
Proof.
  destruct no_handle_type_error as (_ & _ & _ & Hconfirm & _).
  split; apply Hconfirm; discriminate.
Defined.

(** ** Listings after a write *)

Lemma get_documents_everything (c : string) (db : database) :
  get_documents c MatchAll None (Some db) = (inr (coll c db), Some db).
Proof. unfold get_documents. by rewrite filter_match_all. Qed.

Lemma delete_id_normalize (d : document) :
  fields d !! "id" = None → delete "id" (normalize_id d) = fields d.
Proof. intros Hid. unfold normalize_id. rewrite delete_insert_eq. by apply delete_id. Qed.

(** X12.  Publishing a post under a free slug and then listing the blogs: the
    listing is the posts stored before, in insertion order, followed by the
    new post, each with an "id" added; the new post is listed last, under
    the identifier [create_blog] returned and with the fields of the
    request, and listing does not change the store. *)
Theorem list_blogs_after_create (db : database) (blog : BlogCreate) :
  ¬ slug_taken (slug blog) db →
  ∃ bid db' doc listed,
    create_blog blog (Some db) = (inr bid, Some db')
    ∧ list_blogs (Some db') = (inr listed, Some db')
    ∧ listed = (normalize_id <$> coll "blogpost" db) ++ [normalize_id doc]
    ∧ normalize_id doc = <["id" := VStr bid]> (blog_model_dump blog)
    ∧ last listed = Some (normalize_id doc)
    ∧ length listed = S (length (coll "blogpost" db)).
Proof.
  intros Hfree.
  destruct (create_blog_free db blog Hfree) as (db' & Hrun & Hcoll & _).
  eexists _, db', {| _id := Bson.mint (minted db); fields := blog_model_dump blog |}, _.
  split; [exact Hrun |].
  split; [| split; [reflexivity | split; [reflexivity | split]]].
  - unfold list_blogs. step (get_documents_everything "blogpost" db').
    by rewrite Hcoll, fmap_app.
  - apply last_snoc.
  - rewrite length_app, length_fmap. simpl. lia.
Qed.

Lemma list_blogs_after_create_witness :
  ∃ bid db' doc listed,
    create_blog hello_post (Some empty_db) = (inr bid, Some db')
    ∧ list_blogs (Some db') = (inr listed, Some db')
    ∧ listed = (normalize_id <$> coll "blogpost" empty_db) ++ [normalize_id doc]
    ∧ normalize_id doc = <["id" := VStr bid]> (blog_model_dump hello_post)
    ∧ last listed = Some (normalize_id doc)
    ∧ length listed = S (length (coll "blogpost" empty_db)).
Proof.
  apply (list_blogs_after_create empty_db hello_post).
  intros (doc & Hin & _). by apply elem_of_nil in Hin.
Defined.

(** X13.  Placing an order and then listing the orders: the listing is the first
    [limit] (20 by default) of the stored orders in insertion order with the
    new order last among the stored ones, so the new order is listed, under
    the identifier [create_order] returned and as pending, exactly when fewer
    than [limit] orders were there before. *)
Theorem list_orders_after_create (alg : PyFloat.sum_algorithm) (req : CreateOrderRequest)
    (db : database) (lines : list float) (limit : option Z) :
  items req ≠ [] →
  Forall2 (λ i x, PyFloat.mul_int (price i) (quantity i) = inr x) (items req) lines →
  0 ≤ default 20 limit →
  ∃ resp db' doc listed,
    create_order alg req (Some db) = (inr resp, Some db')
    ∧ list_orders limit (Some db') = (inr listed, Some db')
    ∧ listed = normalize_id <$> take (Z.to_nat (default 20 limit)) (coll "order" db ++ [doc])
    ∧ normalize_id doc !! "id" = Some (VStr (order_id resp))
    ∧ normalize_id doc !! "payment_status" = Some (VStr "pending")
    ∧ (Z.of_nat (length (coll "order" db)) < default 20 limit →
         last listed = Some (normalize_id doc))
    ∧ (default 20 limit ≤ Z.of_nat (length (coll "order" db)) →
         listed = normalize_id <$> take (Z.to_nat (default 20 limit)) (coll "order" db)).
Proof.
  intros Hne Hlines Hlimit. apply line_totals_Forall2 in Hlines.
  destruct (create_order_run alg req db lines Hne Hlines) as (db' & Hrun & Hcoll).
  cbv zeta in Hrun, Hcoll.
  eexists _, db', _, _. split; [exact Hrun |].
  split; [| split; [reflexivity | split; [| split; [| split]]]].
  - unfold list_orders. step (get_documents_all "order" (default 20 limit) db').
    by rewrite Hcoll.
  - unfold normalize_id. by rewrite lookup_insert_eq.
  - reflexivity.
  - intros Hfew. rewrite take_ge by (rewrite length_app; simpl; lia).
    rewrite fmap_app. apply last_snoc.
  - intros Hmany. by rewrite take_app_le by lia.
Qed.

Lemma list_orders_after_create_witness :
  ∃ resp db' doc listed,
    create_order PyFloat.Neumaier (cart [cart_item 100 1]) (Some db_one_order)
      = (inr resp, Some db')
    ∧ list_orders (Some 1) (Some db') = (inr listed, Some db')
    ∧ listed = normalize_id <$> take (Z.to_nat 1) (coll "order" db_one_order ++ [doc])
    ∧ normalize_id doc !! "id" = Some (VStr (order_id resp))
    ∧ normalize_id doc !! "payment_status" = Some (VStr "pending")
    ∧ (Z.of_nat (length (coll "order" db_one_order)) < 1 →
         last listed = Some (normalize_id doc))
    ∧ (1 ≤ Z.of_nat (length (coll "order" db_one_order)) →
         listed = normalize_id <$> take (Z.to_nat 1) (coll "order" db_one_order)).
Proof.
  exact (list_orders_after_create PyFloat.Neumaier (cart [cart_item 100 1]) db_one_order
           [100%float] (Some 1) ltac:(discriminate) ltac:(repeat constructor)
           ltac:(simpl; lia)).
Defined.

(** ** The stored documents and the schemas *)

Set Warnings "-clear-no-such-hyp".

(** X14.  The documents the handlers build have exactly the fields the schema of
    their collection declares: orders and their items, blog posts and the
    products of the catalog field for field; a consultation document has all
    fields of its schema but "status", the one the schema would default, so
    every required field is there. *)
Theorem stored_documents_follow_schemas :
  (∀ req subtotal tax shipping total,
     dom (order_doc req subtotal tax shipping total) = Schemas.names Schemas.Order)
  ∧ (∀ i, ∃ m, item_model_dump i = VDict m ∧ dom m = Schemas.names Schemas.OrderItem)
  ∧ (∀ blog, dom (blog_model_dump blog) = Schemas.names Schemas.BlogPost)
  ∧ (∀ req,
       dom (consultation_model_dump req)
         = Schemas.names Schemas.Consultation ∖ {["status"]}
       ∧ Schemas.required_names Schemas.Consultation ⊆ dom (consultation_model_dump req))
  ∧ Forall (λ p, dom p = Schemas.names Schemas.Product) SAMPLE_PRODUCTS.
Proof.
  unfold Schemas.names, Schemas.required_names.
  split; [| split; [| split; [| split]]].
  - intros. unfold order_doc. rewrite dom_list_to_map_L. simpl. set_solver.
  - intros i. eexists. split; [reflexivity |]. rewrite dom_list_to_map_L. simpl. set_solver.
  - intros. unfold blog_model_dump. rewrite dom_list_to_map_L. simpl. set_solver.
  - intros req. unfold consultation_model_dump. rewrite dom_list_to_map_L.
    split; simpl; set_solver.
  - unfold SAMPLE_PRODUCTS. apply Forall_fmap, Forall_forall. intros i _.
    unfold sample_product. cbn [compose]. rewrite dom_list_to_map_L. simpl. set_solver.
Qed.

(** ** The diagnostic endpoint *)

(** X15.  Whatever the handle is, the answer of [test_database] reports for
    "database_url" and "database_name" only whether the environment variable
    is set to a non-empty string: the name of the handle, assigned on the
    way, is always overwritten.  It lists at most ten collections, the first
    ten the driver names, and none when there is no handle or the listing
    fails; and it says "Connected" exactly when there is a handle. *)
Theorem test_database_answer (getenv : string → option string) (db : option Handle) :
  let r := test_database getenv db in
  r !! "backend" = Some (VStr "✅ Running")
  ∧ r !! "database_url" = Some (VStr (env_set getenv "DATABASE_URL"))
  ∧ r !! "database_name" = Some (VStr (env_set getenv "DATABASE_NAME"))
  ∧ (∃ listed,
       r !! "collections" = Some (VList (VStr <$> listed))
       ∧ (length listed ≤ 10)%nat
       ∧ listed = match db with
                  | Some h =>
                      match list_collection_names h with
                      | inr all => take 10 all
                      | inl _ => []
                      end
                  | None => []
                  end)
  ∧ (r !! "connection_status" = Some (VStr "Connected") ↔ is_Some db)
  ∧ (r !! "database" = Some (VStr "✅ Connected & Working")
       ↔ ∃ h all, db = Some h ∧ list_collection_names h = inr all).
Proof.
  destruct db as [[nm [e | all]] |]; cbv zeta.
  - split; [done |]. split; [done |]. split; [done |]. split; [| split].
    + exists []. repeat split; simpl; lia.
    + split; [by eexists | done].
    + split.
      * assert (Hd : test_database getenv
                       (Some {| handle_name := nm; list_collection_names := inl e |})
                       !! "database"
                     = Some (VStr ("⚠️ Connected but Error: " +:+ first_50 e)))
          by reflexivity.
        rewrite Hd. intros Hdb. exfalso. vm_compute in Hdb. congruence.
      * intros (h & a & [= <-] & Ha). discriminate Ha.
  - split; [done |]. split; [done |]. split; [done |]. split; [| split].
    + exists (take 10 all). split; [done |]. split; [| done].
      rewrite length_take. lia.
    + split; [by eexists | done].
    + split; [by eexists _, _ | done].
  - split; [done |]. split; [done |]. split; [done |]. split; [| split].
    + exists []. repeat split; simpl; lia.
    + split; [discriminate | by intros [? ?]].
    + split; [discriminate | by intros (h & a & ? & _)].
Qed.

(** ** Requests that fail *)

Lemma parse_error (s : string) (e : exn) : Bson.parse s = inl e → e = InvalidId.
Proof.
  unfold Bson.parse. destruct (_ =? _)%nat; [| congruence].
  destruct (Bson.fromhex s); congruence.
Qed.

(** X16.  A request to [create_order], [confirm_order], [create_blog] or
    [seed_products] that ends in an exception, of whatever kind and whether
    the store has a handle or not, has written nothing: the store after it
    is the store before it. *)
Theorem failed_requests_write_nothing (s : option database) :
  (∀ alg req e,
     fst (create_order alg req s) = inl e → snd (create_order alg req s) = s)
  ∧ (∀ order_id status e,
       fst (confirm_order order_id status s) = inl e →
       snd (confirm_order order_id status s) = s)
  ∧ (∀ blog e, fst (create_blog blog s) = inl e → snd (create_blog blog s) = s)
  ∧ (∀ body e, fst (seed_products body s) = inl e → snd (seed_products body s) = s).
Proof.
  split; [| split; [| split]].
  - intros alg req e. unfold create_order.
    destruct (items req) as [| i its] eqn:Hits; [done |].
    unfold bind, lift.
    destruct (line_totals (i :: its)) as [e0 | lines] eqn:Hlines; [done |].
    destruct s as [db |]; [| done].
    cbn [ret]. destruct (create_document_some "order"
      (order_doc req (PyFloat.sum alg lines)
         (PyFloat.round (PyFloat.sum alg lines * 0.18)%float 2)
         (if (PyFloat.sum alg lines <? 999)%float then 49%float else 0%float)
         (PyFloat.round
            (PyFloat.sum alg lines + PyFloat.round (PyFloat.sum alg lines * 0.18)%float 2
             + (if (PyFloat.sum alg lines <? 999)%float then 49 else 0))%float 2)) db)
      as (db' & Hrun & _).
    rewrite Hrun. discriminate.
  - intros [order_id |] status e; [| done].
    destruct (decide (order_id = "")) as [-> | Hne]; [done |].
    destruct s as [db |].
    + destruct (Bson.parse order_id) as [e0 | oid] eqn:Hparse.
      * pose proof (parse_error _ _ Hparse) as ->.
        by rewrite (confirm_order_invalid_id db order_id status Hne Hparse).
      * destruct (find (matches (MatchId oid)) (coll "order" db)) as [doc |] eqn:Hfind.
        -- by rewrite (confirm_order_existing db order_id status oid doc Hparse Hfind).
        -- by rewrite (confirm_order_unknown_id db order_id status oid Hparse Hfind).
    + unfold confirm_order. by rewrite bool_decide_eq_false_2.
  - intros blog e. destruct s as [db |]; [| done].
    destruct (decide (slug blog ∈ slugs db)) as [Hin | Hnotin].
    + apply elem_of_slugs in Hin. by rewrite (create_blog_taken db blog Hin).
    + destruct (create_blog_free db blog) as (db' & Hrun & _).
      { by rewrite <- elem_of_slugs. }
      by rewrite Hrun.
  - intros body e. destruct s as [db |]; [done |].
    by destruct body as [[]].
Qed.

Lemma failed_requests_write_nothing_witness :
  snd (confirm_order (Some "nonexistent") (Some "paid") (Some db_one_order)) = Some db_one_order
  ∧ snd (create_blog hello_post (Some db_hello)) = Some db_hello
  ∧ snd (create_order PyFloat.Neumaier (cart [cart_item 1 (2 ^ 1024)]) (Some db_hello))
      = Some db_hello
  ∧ snd (seed_products {| force := true |} (Some db_hello)) = Some db_hello
  ∧ snd (seed_products {| force := false |} (Some empty_db)) = Some empty_db.
Proof.
  destruct (failed_requests_write_nothing (Some db_one_order)) as (_ & Hconfirm & _).
  destruct (failed_requests_write_nothing (Some db_hello)) as (Horder & _ & Hblog & Hseed).
  destruct (failed_requests_write_nothing (Some empty_db)) as (_ & _ & _ & Hseed').
  split; [| split; [| split; [| split]]].
  - exact (Hconfirm (Some "nonexistent") (Some "paid") InvalidId eq_refl).
  - apply (Hblog hello_post (HTTPException 400 "Slug already exists")).
    vm_compute. reflexivity.
  - exact (Horder PyFloat.Neumaier (cart [cart_item 1 (2 ^ 1024)]) OverflowError eq_refl).
  - exact (Hseed {| force := true |} NotImplementedError eq_refl).
  - exact (Hseed' {| force := false |} NotImplementedError eq_refl).
Defined.
